(** * pyusbtmc: a Rigol DS1000 oscilloscope over the Linux usbtmc driver

    A shallow embedding of [pyusbtmc.py] (classes [usbtmc] and
    [RigolScope]) and the properties of its transaction protocol and of
    its waveform decode / scale / serialise pipeline.

    Python [float] is IEEE-754 binary64 and is embedded as Rocq's primitive
    [float]; Python 2 [str] (a byte string) is embedded as [string];
    [numpy] arrays are lists.  The operating system is an oracle that
    answers every call the program makes, so that every statement
    quantifies over all behaviours of the device. *)

From Stdlib Require Import ZArith List String Ascii Bool Lia.
From Stdlib Require Import Floats DecimalString.
Import ListNotations.

Local Open Scope string_scope.
Local Open Scope Z_scope.

(** ** Python built-ins used by the module *)

Module Py.

(** [Py_ISSPACE]: space, and the control characters 9 to 13. *)
Definition is_space (c : ascii) : bool :=
  let n := Z.of_nat (nat_of_ascii c) in
  (n =? 32) || ((9 <=? n) && (n <=? 13)).

Fixpoint lstrip (s : string) : string :=
  match s with
  | String c r => if is_space c then lstrip r else s
  | EmptyString => s
  end.

Definition digit_val (c : ascii) : option Z :=
  let n := Z.of_nat (nat_of_ascii c) in
  if (48 <=? n) && (n <=? 57) then Some (n - 48) else None.

(** Reads a run of decimal digits: the number read on top of [acc], how
    many digits were read on top of [cnt], and the rest. *)
Fixpoint digits (s : string) (acc cnt : Z) : Z * Z * string :=
  match s with
  | String c r =>
      match digit_val c with
      | Some d => digits r (10 * acc + d) (cnt + 1)
      | None => (acc, cnt, s)
      end
  | EmptyString => (acc, cnt, s)
  end.

Definition sign (s : string) : bool * string :=
  match s with
  | String "-" r => (true, r)
  | String "+" r => (false, r)
  | _ => (false, s)
  end.

Definition lower (c : ascii) : ascii :=
  let n := nat_of_ascii c in
  if ((65 <=? n) && (n <=? 90))%nat then ascii_of_nat (n + 32) else c.

(** [istarts p s]: [s] starts with the lower-case word [p], in any case;
    the rest of [s] after it. *)
Fixpoint istarts (p s : string) : option string :=
  match p, s with
  | EmptyString, _ => Some s
  | String a p', String c s' =>
      if Ascii.eqb a (lower c) then istarts p' s' else None
  | String _ _, EmptyString => None
  end.

(** The binary64 number nearest to [n / d] (ties to even), for [n], [d]
    positive; overflows to an infinity. *)
Definition nearest_ratio (neg : bool) (n d : Z) : float :=
  let '(q, e, l) := SFdiv_core_binary prec emax n 0 d 0 in
  SF2Prim (binary_round_aux prec emax neg q e l).

(** The binary64 number nearest to [m * 10 ^ e10]. *)
Definition of_decimal (neg : bool) (m e10 : Z) : float :=
  if m =? 0 then (if neg then neg_zero else zero)
  else if 0 <=? e10 then nearest_ratio neg (m * 10 ^ e10) 1
  else nearest_ratio neg m (10 ^ (- e10)).

(** [_Py_parse_inf_or_nan]: an optional sign, then [inf], [infinity] or
    [nan] in any case. *)
Definition parse_inf_or_nan (s : string) : option (float * string) :=
  let '(neg, s1) := sign s in
  match istarts "inf" s1 with
  | Some r =>
      let r' := match istarts "inity" r with Some r2 => r2 | None => r end in
      Some (if neg then neg_infinity else infinity, r')
  | None =>
      match istarts "nan" s1 with
      | Some r => Some (nan, r)
      | None => None
      end
  end.

Definition is_e (c : ascii) : bool := Ascii.eqb c "e" || Ascii.eqb c "E".

(** The exponent part of a decimal numeral: taken only when at least one
    digit follows the [e] and its optional sign. *)
Definition exponent (s : string) : Z * string :=
  match s with
  | String c r =>
      if is_e c then
        let '(eneg, r1) := sign r in
        let '(ev, en, r2) := digits r1 0 0 in
        if en =? 0 then (0, s) else (if eneg then - ev else ev, r2)
      else (0, s)
  | EmptyString => (0, s)
  end.

(** [_Py_dg_strtod]: sign, digits, optional point and digits (one digit at
    least in all), optional exponent; correctly rounded. *)
Definition strtod (s : string) : option (float * string) :=
  let '(neg, s1) := sign s in
  let '(ip, n1, s2) := digits s1 0 0 in
  let '(m, n2, s3) :=
    match s2 with
    | String "." r => digits r ip 0
    | _ => (ip, 0, s2)
    end in
  if n1 + n2 =? 0 then None
  else
    let '(ex, s4) := exponent s3 in
    Some (of_decimal neg m (ex - n2), s4).

Definition string_to_double (s : string) : option (float * string) :=
  match parse_inf_or_nan s with
  | Some r => Some r
  | None => strtod s
  end.

(** [float(s)] for a [str]: [None] stands for the [ValueError] that the
    built-in raises when [s] is not a numeral with optional white space
    around it. *)
Definition float_of_str (s : string) : option float :=
  match string_to_double (lstrip s) with
  | Some (x, rest) =>
      match lstrip rest with
      | EmptyString => Some x
      | String _ _ => None
      end
  | None => None
  end.

(** [str(n)] for an [int]. *)
Definition str_of_int (n : Z) : string := NilZero.string_of_int (Z.to_int n).

(** *** The [%e] conversion of the [%] operator *)

Definition digit_char (d : Z) : ascii := ascii_of_nat (48 + Z.to_nat d).

(** The [n] low decimal digits of [q], most significant first. *)
Fixpoint dec_digits (n : nat) (q : Z) : string :=
  match n with
  | O => EmptyString
  | S n' => dec_digits n' (q / 10) ++ String (digit_char (q mod 10)) EmptyString
  end.

(** The largest [k >= 0] with [d * 10 ^ k <= n] when [d <= n]. *)
Fixpoint exp_up (fuel : nat) (n d k : Z) : Z :=
  match fuel with
  | O => k
  | S f => if d * 10 <=? n then exp_up f n (d * 10) (k + 1) else k
  end.

(** Minus the least [j >= 1] with [d <= n * 10 ^ j] when [n < d]. *)
Fixpoint exp_down (fuel : nat) (n d k : Z) : Z :=
  match fuel with
  | O => k
  | S f => if d <=? n * 10 then k - 1 else exp_down f (n * 10) d (k - 1)
  end.

(** [floor (log10 (n / d))]; a binary64 number lies between [10 ^ -324]
    and [10 ^ 309]. *)
Definition log10_floor (n d : Z) : Z :=
  if d <=? n then exp_up 400 n d 0 else exp_down 400 n d 0.

Definition round_half_even (a b : Z) : Z :=
  let q := a / b in
  let r := a mod b in
  match 2 * r ?= b with
  | Lt => q
  | Eq => if Z.even q then q else q + 1
  | Gt => q + 1
  end.

(** The [p + 1] significant digits and the decimal exponent of [n / d]
    rounded to nearest, ties to even. *)
Definition sci_digits (p : nat) (n d : Z) : Z * Z :=
  let k := log10_floor n d in
  let s := Z.of_nat p - k in
  let q := if 0 <=? s then round_half_even (n * 10 ^ s) d
           else round_half_even n (d * 10 ^ (- s)) in
  if 10 ^ (Z.of_nat p + 1) <=? q then (10 ^ Z.of_nat p, k + 1) else (q, k).

Definition exp_field (k : Z) : string :=
  (if k <? 0 then "e-" else "e+") ++
  (if Z.abs k <? 100 then dec_digits 2 (Z.abs k) else dec_digits 3 (Z.abs k)).

Definition mantissa_field (p : nat) (q : Z) : string :=
  match dec_digits (S p) q with
  | String c r => String c (match p with O => r | S _ => String "." r end)
  | EmptyString => EmptyString
  end.

Definition sign_field (neg : bool) : string := if neg then "-" else "".

(** ["%1.<p>e" % x]: the minimum width 1 never pads. *)
Definition fmt_e (p : nat) (x : float) : string :=
  match Prim2SF x with
  | S754_nan => "nan"
  | S754_infinity s => sign_field s ++ "inf"
  | S754_zero s => sign_field s ++ mantissa_field p 0 ++ exp_field 0
  | S754_finite s m e =>
      let '(q, k) :=
        if 0 <=? e then sci_digits p (Zpos m * 2 ^ e) 1
        else sci_digits p (Zpos m) (2 ^ (- e)) in
      sign_field s ++ mantissa_field p q ++ exp_field k
  end.

(** [x / y] on two [float]s: [None] stands for [ZeroDivisionError]. *)
Definition truediv (x y : float) : option float :=
  if PrimFloat.eqb y zero then None else Some (x / y)%float.

End Py.

(** ** The parts of [numpy] used by the module

    An array of [dtype='B'] is a list of integers in [0, 256); an array of
    [float64] is a list of [float]. *)

Module numpy.

Definition byte_val (c : ascii) : Z := Z.of_nat (nat_of_ascii c).

(** [numpy.frombuffer(buffer, dtype='B', offset=offset)]: the bytes of
    [buffer] from [offset] on.  [None] stands for the [ValueError]
    ("offset must be non-negative and no greater than buffer length")
    raised when [offset] is negative or greater than the length of the
    buffer; an offset equal to the length gives the empty array. *)
Definition frombuffer (buffer : string) (offset : Z) : option (list Z) :=
  if (offset <? 0) || (Z.of_nat (String.length buffer) <? offset) then None
  else Some (map byte_val (skipn (Z.to_nat offset) (list_ascii_of_string buffer))).

Definition zeros (n : nat) : list float := repeat zero n.

(** [a.size] *)
Definition size {A : Type} (a : list A) : nat := List.length a.

(** Conversion of an integer (a sample, an index, a count) to [float64]. *)
Definition of_int (n : Z) : float :=
  if n <? 0 then (- of_uint63 (Uint63.of_Z (- n)))%float
  else of_uint63 (Uint63.of_Z n).

(** [y[-1] = v] *)
Definition set_last (y : list float) (v : float) : list float :=
  match y with
  | [] => []
  | _ :: _ => (removelast y ++ [v])%list
  end.

(** [numpy.linspace(start, stop, num)], with [endpoint=True]. *)
Definition linspace (start stop : float) (num : nat) : list float :=
  let div := of_int (Z.of_nat num - 1) in
  let delta := (stop - start)%float in
  let y := map (fun i => of_int (Z.of_nat i)) (seq 0 num) in
  let y :=
    if (1 <? num)%nat then
      let step := (delta / div)%float in
      if PrimFloat.eqb step zero
      then map (fun v => (v / div * delta)%float) y
      else map (fun v => (v * step)%float) y
    else map (fun v => (v * delta)%float) y in
  let y := map (fun v => (v + start)%float) y in
  if (1 <? num)%nat then set_last y stop else y.

(** [k - a] for an [int] [k] that fits the type and a [uint8] array [a]:
    the result is [uint8] again, modulo 256. *)
Definition rsub_u8 (k : Z) (a : list Z) : list Z :=
  map (fun s => (k - s) mod 256) a.

(** [a - x] for a [uint8] array and a [float]: a [float64] array. *)
Definition sub_u8_f (a : list Z) (x : float) : list float :=
  map (fun s => (of_int s - x)%float) a.

Definition sub_f (a : list float) (x : float) : list float :=
  map (fun v => (v - x)%float) a.

Definition div_f (a : list float) (x : float) : list float :=
  map (fun v => (v / x)%float) a.

Definition mul_f (a : list float) (x : float) : list float :=
  map (fun v => (v * x)%float) a.

End numpy.

(** ** The world outside the program *)

Inductive exn : Type :=
| OSError (errno : Z)
| IOError (errno : Z)
| ValueError
| ZeroDivisionError
| IndexError
| OverflowError.

(** An output stream: [sys.stdout], or the file object that
    [open(name, 'w')] returned. *)
Inductive stream : Type :=
| Stdout
| File (name : string).

(** What the program does to the world, in the order it does it. *)
Inductive event : Type :=
| OsOpen (path : string)
| OsWrite (fd : Z) (data : string)
| OsRead (fd : Z) (length : Z)
| OsClose (fd : Z)
| LogErr (msg : string) (e : option exn)
| FOpen (name : string)
| FWrite (f : stream) (text : string)
| FClose (f : stream).

(** The answer of the operating system to one call: the integer it
    returns (a descriptor, a count) and the bytes a read would find, or an
    error number. *)
Inductive answer : Type :=
| Done (n : Z) (data : string)
| Failed (errno : Z).

Record World : Type := mkWorld {
  answers : nat -> answer;
  calls : nat;
  trace : list event;
  stdout_closed : bool
}.

Definition log (ev : event) (w : World) : World :=
  mkWorld (answers w) (calls w) (trace w ++ [ev])%list (stdout_closed w).

Definition tick (w : World) : World :=
  mkWorld (answers w) (S (calls w)) (trace w) (stdout_closed w).

Definition close_stdout (w : World) : World :=
  mkWorld (answers w) (calls w) (trace w) true.

(** ** Computations: state and exceptions *)

Inductive result (A : Type) : Type :=
| Ok (a : A)
| Raise (e : exn).

Arguments Ok {A} a.
Arguments Raise {A} e.

Definition M (A : Type) : Type := World -> result A * World.

Definition ret {A : Type} (a : A) : M A := fun w => (Ok a, w).

Definition bind {A B : Type} (m : M A) (f : A -> M B) : M B :=
  fun w =>
    match m w with
    | (Ok a, w') => f a w'
    | (Raise e, w') => (Raise e, w')
    end.

Definition raise {A : Type} (e : exn) : M A := fun w => (Raise e, w).

(** [try: m except OSError as e: h e] *)
Definition try_OSError {A : Type} (m : M A) (h : Z -> M A) : M A :=
  fun w =>
    match m w with
    | (Raise (OSError n), w') => h n w'
    | r => r
    end.

Definition lift {A : Type} (e : exn) (o : option A) : M A :=
  match o with
  | Some a => ret a
  | None => raise e
  end.

Notation "x <- m ;; k" := (bind m (fun x => k))
  (at level 61, m at next level, right associativity).
Notation "m ;; k" := (bind m (fun _ => k))
  (at level 61, right associativity).

(** [for j in range(i, i + n): body j]; the loops of the module start
    at 0. *)
Fixpoint for_range (i : nat) (n : nat) (body : nat -> M unit) : M unit :=
  match n with
  | O => ret tt
  | S n' => body i ;; for_range (S i) n' body
  end.

(** One call to the operating system: it is recorded and answered. *)
Definition syscall (ev : event) : M answer :=
  fun w => (Ok (answers w (calls w)), tick (log ev w)).

Definition EINVAL : Z := 22.

(** The range of a C [int], the type in which Python 2 hands a length to
    the operating system. *)
Definition INT_MIN : Z := -2147483648.
Definition INT_MAX : Z := 2147483647.

Definition fits_int (n : Z) : bool := (INT_MIN <=? n) && (n <=? INT_MAX).
Definition ETIMEDOUT : Z := 110.

Module os.

Definition open (path : string) : M Z :=
  a <- syscall (OsOpen path) ;;
  match a with
  | Done fd _ => ret fd
  | Failed n => raise (OSError n)
  end.

Definition write (fd : Z) (data : string) : M unit :=
  a <- syscall (OsWrite fd data) ;;
  match a with
  | Done _ _ => ret tt
  | Failed n => raise (OSError n)
  end.

(** [os.read(fd, n)]: at most [n] of the bytes that are there.  A length
    that does not fit a C [int] is refused with [OverflowError] when the
    arguments are converted, and a negative one with [EINVAL], both
    before the descriptor is touched. *)
Definition read (fd : Z) (n : Z) : M string :=
  if negb (fits_int n) then raise OverflowError
  else if n <? 0 then raise (OSError EINVAL)
  else
    a <- syscall (OsRead fd n) ;;
    match a with
    | Done _ data => ret (substring 0 (Z.to_nat n) data)
    | Failed e => raise (OSError e)
    end.

Definition close (fd : Z) : M unit :=
  a <- syscall (OsClose fd) ;;
  match a with
  | Done _ _ => ret tt
  | Failed n => raise (OSError n)
  end.

End os.

(** [print >> sys.stderr, msg] and [print >> sys.stderr, msg, e] *)
Definition print_stderr (msg : string) (e : option exn) : M unit :=
  fun w => (Ok tt, log (LogErr msg e) w).

(** [open(name, 'w')] *)
Definition fopen (name : string) : M stream :=
  a <- syscall (FOpen name) ;;
  match a with
  | Done _ _ => ret (File name)
  | Failed n => raise (IOError n)
  end.

(** [f.write(text)]: a [ValueError] on a closed [sys.stdout]; a write to
    an open stream is buffered and succeeds.  The module never writes to a
    file object that it has closed. *)
Definition fwrite (f : stream) (text : string) : M unit :=
  fun w =>
    match f with
    | Stdout =>
        if stdout_closed w then (Raise ValueError, w)
        else (Ok tt, log (FWrite f text) w)
    | File _ => (Ok tt, log (FWrite f text) w)
    end.

(** [f.close()]; closing [sys.stdout] again is allowed and does nothing
    more. *)
Definition fclose (f : stream) : M unit :=
  fun w =>
    match f with
    | Stdout => (Ok tt, close_stdout (log (FClose f) w))
    | File _ => (Ok tt, log (FClose f) w)
    end.

(** [print text] *)
Definition print (text : string) : M unit :=
  fwrite Stdout (text ++ String "010" "").

(** [a[i]] on an array: [IndexError] past the end. *)
Definition getitem {A : Type} (a : list A) (i : nat) : M A :=
  lift IndexError (nth_error a i).

(** A Python value passed as a channel selector: an [int] or a [str]. *)
Inductive pyval : Type :=
| PInt (n : Z)
| PStr (s : string).

Definition py_eq (a b : pyval) : bool :=
  match a, b with
  | PInt x, PInt y => x =? y
  | PStr x, PStr y => String.eqb x y
  | _, _ => false
  end.

Definition str (v : pyval) : string :=
  match v with
  | PInt n => Py.str_of_int n
  | PStr s => s
  end.

(** The attributes of [self]. *)
Record Self : Type := mkSelf {
  device : string;
  FILE : Z;
  name : string
}.

(** [self.name = n] *)
Definition set_name (self : Self) (n : string) : Self :=
  mkSelf (device self) (FILE self) n.

(** ** class usbtmc *)

Module usbtmc.

(** [usbtmc.__init__(self, device)] *)
Definition __init__ (device : string) : M Self :=
  try_OSError
    (fd <- os.open device ;;
     ret (mkSelf device fd ""))
    (fun n =>
       print_stderr "Error opening device: " (Some (OSError n)) ;;
       raise (OSError n)).

Definition write (self : Self) (command : string) : M unit :=
  try_OSError
    (os.write (FILE self) command)
    (fun n => print_stderr "Write Error: " (Some (OSError n))).

Definition read (self : Self) (length : Z) : M string :=
  try_OSError
    (os.read (FILE self) length)
    (fun n =>
       (if n =? ETIMEDOUT
        then print_stderr "Read Error: Read timeout" None
        else print_stderr "Read Error: " (Some (OSError n))) ;;
       ret "").

Definition query (self : Self) (command : string) (length : Z) : M string :=
  write self command ;;
  read self length.

Definition getName (self : Self) : M string := query self "*IDN?" 300.

Definition sendReset (self : Self) : M unit := write self "*RST".

Definition close (self : Self) : M unit := os.close (FILE self).

End usbtmc.

Definition RIGOL_WAV_PREAMBLE_LENGTH : Z := 10.

Definition tab : string := String "009" "".
Definition newline : string := String "010" "".

(** ** class RigolScope(usbtmc) *)

Module RigolScope.

(** [RigolScope.__init__(self, device)] *)
Definition __init__ (device : string) : M Self :=
  self <- usbtmc.__init__ device ;;
  name <- usbtmc.getName self ;;
  print ("# Connected to: " ++ name) ;;
  ret (set_name self name).

Definition stop (self : Self) : M unit := usbtmc.write self ":STOP".

Definition run (self : Self) : M unit := usbtmc.write self ":RUN".

Definition forceTrigger (self : Self) : M unit := usbtmc.write self ":KEY:FORC".

Definition unlock (self : Self) : M unit := forceTrigger self.

Definition close (self : Self) : M unit :=
  unlock self ;;
  usbtmc.close self.

Definition readRawData (self : Self) (chan : pyval) : M string :=
  let command := ":WAV:DATA? CHAN" ++ str chan in
  usbtmc.write self command ;;
  usbtmc.read self 9000.

Definition getStatus (self : Self) : M string :=
  usbtmc.query self ":TRIGGER:STATUS?" 300.

Definition setWavePointsMode (self : Self) (mode : string) : M unit :=
  usbtmc.write self ("WAVEFORM:POINTS:MODE " ++ mode).

Definition getWavePointsMode (self : Self) : M string :=
  usbtmc.query self "WAVEFORM:POINTS:MODE?" 300.

Definition readData (self : Self) (chan : pyval) : M (list Z) :=
  rawdata <- readRawData self chan ;;
  lift ValueError (numpy.frombuffer rawdata RIGOL_WAV_PREAMBLE_LENGTH).

(** [float(s)] *)
Definition float (s : string) : M PrimFloat.float :=
  lift ValueError (Py.float_of_str s).

Definition getVoltScale (self : Self) (chan : pyval) : M PrimFloat.float :=
  r <- usbtmc.query self (":CHAN" ++ str chan ++ ":SCAL?") 20 ;;
  float r.

Definition getVoltOffset (self : Self) (chan : pyval) : M PrimFloat.float :=
  r <- usbtmc.query self (":CHAN" ++ str chan ++ ":OFFS?") 20 ;;
  float r.

Definition getTimeScale (self : Self) : M PrimFloat.float :=
  r <- usbtmc.query self ":TIM:SCAL?" 20 ;;
  float r.

Definition getTimeOffset (self : Self) : M PrimFloat.float :=
  r <- usbtmc.query self ":TIM:OFFS?" 20 ;;
  float r.

Definition getScaledWaveform (self : Self) (chan : pyval)
  : M (list PrimFloat.float) :=
  data <- readData self chan ;;
  voltscale <- getVoltScale self chan ;;
  voltoffset <- getVoltOffset self chan ;;
  let data := numpy.rsub_u8 255 data in
  q <- lift ZeroDivisionError (Py.truediv voltoffset voltscale) ;;
  let data :=
    numpy.mul_f
      (numpy.div_f
         (numpy.sub_f (numpy.sub_u8_f data 130) (q * 25))
         25)
      voltscale in
  ret data.

Definition getTimeAxis (self : Self) : M (list PrimFloat.float) :=
  timescale <- getTimeScale self ;;
  timeoffset <- getTimeOffset self ;;
  let timespan := (300 / 50 * timescale)%float in
  let time := numpy.linspace (- timespan) timespan 600 in
  ret time.

Definition header : string :=
  "# Time     " ++ tab ++ "Channel 1" ++ tab ++ "Channel 2" ++ newline.

(** ["%1.4e\t%1.3e\t%1.3e\n" % (t, d1, d2)] *)
Definition row (t d1 d2 : PrimFloat.float) : string :=
  Py.fmt_e 4 t ++ tab ++ Py.fmt_e 3 d1 ++ tab ++ Py.fmt_e 3 d2 ++ newline.

Definition _writeChannelDataToFile (self : Self) (fd : stream)
    (data1 data2 time : list PrimFloat.float) : M unit :=
  fwrite fd header ;;
  for_range 0 (numpy.size time) (fun i =>
    t <- getitem time i ;;
    d1 <- getitem data1 i ;;
    d2 <- getitem data2 i ;;
    fwrite fd (row t d1 d2)).

Definition writeWaveformToFile (self : Self) (filename : string)
    (chan : pyval) : M unit :=
  fd <- (if String.eqb filename "" then ret Stdout else fopen filename) ;;
  time <- getTimeAxis self ;;
  let data1 := numpy.zeros (numpy.size time) in
  let data2 := numpy.zeros (numpy.size time) in
  let chan := if py_eq chan (PStr "BOTH") then PInt 3 else chan in
  data1 <- (if py_eq chan (PInt 1) || py_eq chan (PInt 3)
            then getScaledWaveform self (PInt 1) else ret data1) ;;
  data2 <- (if py_eq chan (PInt 2) || py_eq chan (PInt 3)
            then getScaledWaveform self (PInt 2) else ret data2) ;;
  _writeChannelDataToFile self fd data1 data2 time ;;
  fclose fd.

End RigolScope.

(** [main()]: the module test code. *)
Definition main : M unit :=
  print "# RigolScope Test #" ;;
  scope <- RigolScope.__init__ "/dev/usbtmc0" ;;
  RigolScope.writeWaveformToFile scope "" (PInt (1 + 2)) ;;
  RigolScope.close scope.

(** ** Vocabulary of the statements *)

(** The four numeric queries of the scope, their command and the method
    that sends it. *)
Inductive numeric_query : Type :=
| VoltScale (chan : pyval)
| VoltOffset (chan : pyval)
| TimeScale
| TimeOffset.

Definition command (q : numeric_query) : string :=
  match q with
  | VoltScale chan => ":CHAN" ++ str chan ++ ":SCAL?"
  | VoltOffset chan => ":CHAN" ++ str chan ++ ":OFFS?"
  | TimeScale => ":TIM:SCAL?"
  | TimeOffset => ":TIM:OFFS?"
  end.

Definition ask (q : numeric_query) (self : Self) : M float :=
  match q with
  | VoltScale chan => RigolScope.getVoltScale self chan
  | VoltOffset chan => RigolScope.getVoltOffset self chan
  | TimeScale => RigolScope.getTimeScale self
  | TimeOffset => RigolScope.getTimeOffset self
  end.

(** What the instrument answers to the query [q] sent in the world [w]. *)
Definition response (q : numeric_query) (self : Self) (w : World) : string :=
  match fst (usbtmc.query self (command q) 20 w) with
  | Ok r => r
  | Raise _ => ""
  end.

Definition is_LogErr (ev : event) : bool :=
  match ev with
  | LogErr _ _ => true
  | _ => false
  end.

(** A device that gives the answers of [l] in turn, and then lets every
    call time out. *)
Definition script (l : list answer) : nat -> answer :=
  fun n => nth n l (Failed ETIMEDOUT).

Definition scope0 : Self := mkSelf "/dev/usbtmc0" 3 "".

(** A device that takes every command and never answers. *)
Definition mute : World :=
  mkWorld (fun n => if Nat.even n then Done 0 "" else Failed ETIMEDOUT) 0 [] false.

(** The ten-byte header of a waveform of 600 points, and [n] bytes [c]. *)
Definition preamble : string := "#800000600".

Definition wave (n : nat) (c : ascii) : string :=
  string_of_list_ascii (repeat c n).

(** An unsigned 8-bit sample. *)
Definition uint8 (s : Z) : Prop := 0 <= s < 256.

(** The voltage transform in the words of the specification. *)
Definition scaleVoltage (s : Z) (voltScale voltOffset : float) : float :=
  let inverted := 255 - s in
  (((numpy.of_int inverted - 130 - (voltOffset / voltScale) * 25) / 25)
   * voltScale)%float.

(** A scope whose channel 1 sends the single sample 130 at 100 V per
    division and no offset. *)
Definition one_sample : World :=
  mkWorld
    (script [Done 16 ""; Done 0 (preamble ++ wave 1 "130");
             Done 12 ""; Done 0 "1.000e+02";
             Done 12 ""; Done 0 "0.000e+00"])
    0 [] false.

(** A scope that sends five bytes where a waveform is expected. *)
Definition short_wave : World :=
  mkWorld (script [Done 16 ""; Done 0 "#8000"]) 0 [] false.

(** A scope with a time base of one second per division, and the offset
    answer [offs]. *)
Definition timebase (offs : string) : World :=
  mkWorld (script [Done 10 ""; Done 0 "1.000e+00"; Done 10 ""; Done 0 offs])
    0 [] false.

(** [a[i]] for an index known to be in range. *)
Definition at_ (a : list float) (i : nat) : float := nth i a nan.

Fixpoint increasing (a : list float) : bool :=
  match a with
  | x :: (y :: _) as r => PrimFloat.ltb x y && increasing r
  | _ => true
  end.

(** No point of [a] is nearer to zero than [a[i]]. *)
Definition nearest_zero (a : list float) (i : nat) : bool :=
  forallb (fun x => PrimFloat.leb (abs (at_ a i)) (abs x)) a.

(** [a[i]] and [a[n-1-i]] are opposite within [tol], for every [i]. *)
Definition mirrored (tol : float) (a : list float) : bool :=
  forallb
    (fun i => PrimFloat.leb (abs (at_ a i + at_ a (List.length a - 1 - i))) tol)
    (seq 0 (List.length a)).

(** The stream that [writeWaveformToFile] writes to. *)
Definition target (filename : string) : stream :=
  if String.eqb filename "" then Stdout else File filename.

(** Whether [writeWaveformToFile] acquires channel [k] for the selector
    [chan]. *)
Definition requested (k : Z) (chan : pyval) : bool :=
  let chan := if py_eq chan (PStr "BOTH") then PInt 3 else chan in
  py_eq chan (PInt k) || py_eq chan (PInt 3).

Definition stream_eqb (f g : stream) : bool :=
  match f, g with
  | Stdout, Stdout => true
  | File a, File b => String.eqb a b
  | _, _ => false
  end.

(** The text that the events [evs] write to the stream [f]. *)
Fixpoint written (f : stream) (evs : list event) : string :=
  match evs with
  | [] => ""
  | FWrite g text :: r =>
      if stream_eqb f g then text ++ written f r else written f r
  | _ :: r => written f r
  end.

(** [s.split(sep)] for a separator of one character. *)
Fixpoint split (sep : ascii) (s : string) : list string :=
  match s with
  | EmptyString => [EmptyString]
  | String c r =>
      if Ascii.eqb c sep then EmptyString :: split sep r
      else
        match split sep r with
        | piece :: more => String c piece :: more
        | [] => [String c EmptyString]
        end
  end.

(** The lines of a text whose last line is terminated, and their cells. *)
Definition lines (text : string) : list string :=
  removelast (split "010" text).

Definition table (text : string) : list (list string) :=
  map (split "009") (lines text).

(** Events that neither write to a stream nor close one. *)
Definition silent_event (ev : event) : bool :=
  match ev with
  | FWrite _ _ | FClose _ => false
  | _ => true
  end.

Definition log_all (evs : list event) (w : World) : World :=
  mkWorld (answers w) (calls w) (trace w ++ evs)%list (stdout_closed w).

Fixpoint free_of (sep : ascii) (s : string) : bool :=
  match s with
  | EmptyString => true
  | String c r => negb (Ascii.eqb c sep) && free_of sep r
  end.

(** A cell: no tab and no newline in it. *)
Definition plain (s : string) : bool := free_of "009" s && free_of "010" s.

(** The cells of the data lines for three arrays, by index. *)
Definition cells (time data1 data2 : list float) : list (list string) :=
  map (fun j => [Py.fmt_e 4 (at_ time j);
                 Py.fmt_e 3 (at_ data1 j);
                 Py.fmt_e 3 (at_ data2 j)])
      (seq 0 (List.length time)).

Definition rows_written (fd : stream) (time data1 data2 : list float)
  : list event :=
  map (fun j => FWrite fd (RigolScope.row (at_ time j) (at_ data1 j)
                             (at_ data2 j)))
      (seq 0 (List.length time)).

Definition header_cells : list string :=
  ["# Time     "; "Channel 1"; "Channel 2"].

(** A scope that answers every query and sends on channel 1 a waveform of
    600 samples, all 130, at 100 V per division. *)
Definition bench : World :=
  mkWorld
    (script [Done 10 ""; Done 0 "1.000e+00"; Done 10 ""; Done 0 "0.000e+00";
             Done 16 ""; Done 0 (preamble ++ wave 600 "130");
             Done 12 ""; Done 0 "1.000e+02";
             Done 12 ""; Done 0 "0.000e+00"])
    0 [] false.

(** [m] adds only silent events to the trace and leaves [sys.stdout] as
    it is, whatever its outcome. *)
Definition quiet {A : Type} (m : M A) : Prop :=
  forall w, exists evs,
    trace (snd (m w)) = (trace w ++ evs)%list /\
    forallb silent_event evs = true /\
    stdout_closed (snd (m w)) = stdout_closed w.

(** The text made of the lines [ls], each terminated by a newline. *)
Definition unlines (ls : list string) : string :=
  fold_right (fun l acc => l ++ String "010" acc) "" ls.

(** One data line without its newline. *)
Definition line (t d1 d2 : float) : string :=
  Py.fmt_e 4 t ++ String "009" (Py.fmt_e 3 d1 ++ String "009" (Py.fmt_e 3 d2)).

Definition header_line : string :=
  "# Time     " ++ String "009" ("Channel 1" ++ String "009" "Channel 2").

Definition is_FClose (ev : event) : bool :=
  match ev with
  | FClose _ => true
  | _ => false
  end.

(** [m] adds to the trace only events that satisfy [P], whatever its
    outcome. *)
Definition emits {A : Type} (P : event -> bool) (m : M A) : Prop :=
  forall w, exists evs,
    trace (snd (m w)) = (trace w ++ evs)%list /\
    forallb P evs = true.

(** The commands that fetch the time base and the two channels. *)
Definition query_commands : list string :=
  [":TIM:SCAL?"; ":TIM:OFFS?";
   ":WAV:DATA? CHAN1"; ":CHAN1:SCAL?"; ":CHAN1:OFFS?";
   ":WAV:DATA? CHAN2"; ":CHAN2:SCAL?"; ":CHAN2:OFFS?"].


(** Events other than the unlock command and the release of a
    descriptor. *)
Definition no_shutdown (ev : event) : bool :=
  match ev with
  | OsWrite _ cmd => negb (String.eqb cmd ":KEY:FORC")
  | OsClose _ => false
  | _ => true
  end.



(** A scope whose time base answers and nothing else does. *)
Definition only_timebase : World := timebase "0.000e+00".


(** A scope whose channel 1 sends the single sample 125, at 0.2 V per
    division and no offset. *)
Definition centre_sample : World :=
  mkWorld
    (script [Done 16 ""; Done 0 (preamble ++ wave 1 "125");
             Done 12 ""; Done 0 "2.000e-01";
             Done 12 ""; Done 0 "0.000e+00"])
    0 [] false.

(** Traffic with the device that leaves the output streams alone and is
    no part of the shutdown. *)
Definition device_event (ev : event) : bool :=
  silent_event ev && no_shutdown ev.

(** ** The transport: [usbtmc.write], [usbtmc.read], [usbtmc.query] *)

Lemma write_spec (self : Self) (command : string) (w : World) :
  usbtmc.write self command w =
  let w1 := tick (log (OsWrite (FILE self) command) w) in
  match answers w (calls w) with
  | Done _ _ => (Ok tt, w1)
  | Failed e => (Ok tt, log (LogErr "Write Error: " (Some (OSError e))) w1)
  end.
Proof.
  unfold usbtmc.write, try_OSError, os.write, bind, syscall; simpl.
  destruct (answers w (calls w)); reflexivity.
Qed.

Lemma fits_int_spec (n : Z) :
  fits_int n = true <-> INT_MIN <= n <= INT_MAX.
Proof. unfold fits_int. rewrite andb_true_iff, !Z.leb_le. reflexivity. Qed.

(** A length outside the C [int] range is refused before anything is
    read, and [usbtmc.read] does not catch that exception. *)
Lemma read_overflow (self : Self) (n : Z) (w : World) :
  fits_int n = false ->
  usbtmc.read self n w = (Raise OverflowError, w).
Proof.
  intros H. unfold usbtmc.read, try_OSError, os.read. rewrite H. reflexivity.
Qed.

Lemma read_spec (self : Self) (n : Z) (w : World) :
  fits_int n = true ->
  usbtmc.read self n w =
  if n <? 0
  then (Ok "", log (LogErr "Read Error: " (Some (OSError EINVAL))) w)
  else
    let w1 := tick (log (OsRead (FILE self) n) w) in
    match answers w (calls w) with
    | Done _ data => (Ok (substring 0 (Z.to_nat n) data), w1)
    | Failed e =>
        (Ok "",
         log (if e =? ETIMEDOUT then LogErr "Read Error: Read timeout" None
              else LogErr "Read Error: " (Some (OSError e))) w1)
    end.
Proof.
  intros Hfit. unfold usbtmc.read, try_OSError, os.read. rewrite Hfit. simpl.
  destruct (n <? 0); [reflexivity|].
  unfold bind, syscall; simpl.
  destruct (answers w (calls w)) as [k data|e]; [reflexivity|].
  unfold raise, print_stderr, ret. destruct (e =? ETIMEDOUT); reflexivity.
Qed.

Lemma substring_length_le (n : nat) (s : string) :
  (String.length (substring 0 n s) <= n)%nat.
Proof.
  revert s; induction n as [|n IH]; intros [|c s]; simpl; try lia.
  specialize (IH s); lia.
Qed.

Lemma read_never_raises (self : Self) (n : Z) (w : World) :
  fits_int n = true ->
  exists s, fst (usbtmc.read self n w) = Ok s.
Proof.
  intros Hfit. rewrite read_spec by exact Hfit.
  destruct (n <? 0); [eexists; reflexivity|].
  simpl. destruct (answers w (calls w)); eexists; reflexivity.
Qed.

Lemma query_never_raises (self : Self) (cmd : string) (n : Z) (w : World) :
  fits_int n = true ->
  exists s, fst (usbtmc.query self cmd n w) = Ok s.
Proof.
  intros Hfit. unfold usbtmc.query, bind. rewrite write_spec. simpl.
  destruct (answers w (calls w)); apply read_never_raises, Hfit.
Qed.

(** C6. For a [length] that [os.read] accepts as a C [int],
    [usbtmc.read] never raises: it returns the empty string when the read
    fails, whether it timed out (errno 110) or failed otherwise, and at
    most [length] bytes when it succeeds. *)
Theorem read_failure_is_empty (self : Self) (length : Z) (w : World) :
  INT_MIN <= length <= INT_MAX ->
  exists s,
    fst (usbtmc.read self length w) = Ok s /\
    Z.of_nat (String.length s) <= Z.max 0 length /\
    match answers w (calls w) with
    | Failed e => s = ""
    | Done _ data =>
        s = if length <? 0 then "" else substring 0 (Z.to_nat length) data
    end.
Proof.
  intros Hfit. rewrite read_spec by (apply fits_int_spec, Hfit).
  destruct (Z.ltb_spec length 0) as [Hn|Hn].
  - exists "". simpl. repeat split; try lia.
    destruct (answers w (calls w)); reflexivity.
  - simpl. destruct (answers w (calls w)) as [k data|e]; simpl.
    + eexists; repeat split.
      pose proof (substring_length_le (Z.to_nat length) data). lia.
    + exists "". simpl. repeat split; lia.
Qed.

Lemma read_failure_is_empty_witness :
  INT_MIN <= 4000 <= INT_MAX /\
  answers (tick mute) (calls (tick mute)) = Failed ETIMEDOUT /\
  fst (usbtmc.read scope0 4000 (tick mute)) = Ok "".
Proof.
  split; [unfold INT_MIN, INT_MAX; lia|]. split; [reflexivity|].
  destruct (read_failure_is_empty scope0 4000 (tick mute)
              ltac:(unfold INT_MIN, INT_MAX; lia)) as (s & Hs & _ & He).
  rewrite Hs. cbn in He. rewrite He. reflexivity.
Defined.

(** Outside that range nothing is read and the exception reaches the
    caller. *)
Example read_overflow_run :
  usbtmc.read scope0 (2 ^ 63) mute = (Raise OverflowError, mute).
Proof. reflexivity. Qed.

(** The two kinds of failure differ in what is printed to [sys.stderr]. *)
Lemma read_timeout_logged (self : Self) (n : Z) (w : World) :
  0 <= n <= INT_MAX -> answers w (calls w) = Failed ETIMEDOUT ->
  usbtmc.read self n w =
  (Ok "", log (LogErr "Read Error: Read timeout" None)
            (tick (log (OsRead (FILE self) n) w))).
Proof.
  intros Hn Ho.
  rewrite read_spec by (apply fits_int_spec; unfold INT_MIN; lia).
  destruct (Z.ltb_spec n 0); [lia|]. simpl. rewrite Ho. reflexivity.
Qed.

Example read_timeout_run :
  usbtmc.read scope0 4000 (tick mute) =
  (Ok "", mkWorld (answers mute) 2
            [OsRead 3 4000; LogErr "Read Error: Read timeout" None] false).
Proof. reflexivity. Qed.

(** ** Panel unlock and shutdown *)

(** C9. [unlock] does what [forceTrigger] does: one write of [:KEY:FORC]
    to the device, and nothing else but the report of a failed write. *)
Theorem unlock_is_forceTrigger (self : Self) (w : World) :
  RigolScope.unlock self w = RigolScope.forceTrigger self w /\
  RigolScope.forceTrigger self w = usbtmc.write self ":KEY:FORC" w /\
  exists errs,
    RigolScope.unlock self w =
    (Ok tt,
     mkWorld (answers w) (S (calls w))
       (trace w ++ OsWrite (FILE self) ":KEY:FORC" :: errs)%list
       (stdout_closed w)) /\
    forallb is_LogErr errs = true.
Proof.
  split; [reflexivity|]. split; [reflexivity|].
  unfold RigolScope.unlock, RigolScope.forceTrigger.
  rewrite write_spec. simpl.
  destruct (answers w (calls w)) as [k d|e].
  - exists []. split; reflexivity.
  - exists [LogErr "Write Error: " (Some (OSError e))]. split; [|reflexivity].
    unfold log, tick; simpl. rewrite <- app_assoc. reflexivity.
Qed.

(** C7. [RigolScope.close] writes the unlock command [:KEY:FORC] to the
    device and only then releases the descriptor: the release is the last
    thing it does, and the unlock write comes before it. *)
Theorem close_unlocks_before_release (self : Self) (w : World) :
  exists errs,
    trace (snd (RigolScope.close self w)) =
    (trace w ++ OsWrite (FILE self) ":KEY:FORC" :: errs
       ++ [OsClose (FILE self)])%list /\
    forallb is_LogErr errs = true.
Proof.
  unfold RigolScope.close, RigolScope.unlock, RigolScope.forceTrigger, bind.
  rewrite write_spec. simpl.
  destruct (answers w (calls w)) as [k d|e].
  - exists []. split; [|reflexivity].
    unfold usbtmc.close, os.close, bind, syscall; simpl.
    destruct (answers w (S (calls w))); simpl; rewrite <- app_assoc; reflexivity.
  - exists [LogErr "Write Error: " (Some (OSError e))]. split; [|reflexivity].
    unfold usbtmc.close, os.close, bind, syscall; simpl.
    destruct (answers w (S (calls w))); simpl;
      rewrite <- !app_assoc; reflexivity.
Qed.

Example close_run :
  RigolScope.close scope0 (mkWorld (script [Done 9 ""; Done 0 ""]) 0 [] false)
  = (Ok tt,
     mkWorld (script [Done 9 ""; Done 0 ""]) 2
       [OsWrite 3 ":KEY:FORC"; OsClose 3] false).
Proof. reflexivity. Qed.

(** A failed unlock write is reported and the descriptor is released all
    the same. *)
Example close_run_write_fails :
  trace (snd (RigolScope.close scope0
                (mkWorld (script [Failed 5; Done 0 ""]) 0 [] false)))
  = [OsWrite 3 ":KEY:FORC"; LogErr "Write Error: " (Some (OSError 5));
     OsClose 3].
Proof. reflexivity. Qed.

(** ** Numeric queries *)

Lemma query_spec (self : Self) (cmd : string) (n : Z) (w : World) :
  usbtmc.query self cmd n w =
  usbtmc.read self n (snd (usbtmc.write self cmd w)).
Proof.
  unfold usbtmc.query, bind. rewrite write_spec. simpl.
  destruct (answers w (calls w)); reflexivity.
Qed.

Lemma write_then (self : Self) (cmd : string) (w : World) :
  answers (snd (usbtmc.write self cmd w)) = answers w /\
  calls (snd (usbtmc.write self cmd w)) = S (calls w).
Proof.
  rewrite write_spec. simpl. destruct (answers w (calls w)); split; reflexivity.
Qed.

Lemma query_failed_read (self : Self) (cmd : string) (n e : Z) (w : World) :
  fits_int n = true ->
  answers w (S (calls w)) = Failed e ->
  fst (usbtmc.query self cmd n w) = Ok "".
Proof.
  intros Hfit Ho. rewrite query_spec.
  destruct (write_then self cmd w) as [Hos Hc].
  rewrite read_spec by exact Hfit. destruct (n <? 0); [reflexivity|].
  simpl. rewrite Hos, Hc, Ho. reflexivity.
Qed.

Lemma ask_spec (q : numeric_query) (self : Self) (w : World) :
  ask q self w =
  (match Py.float_of_str (response q self w) with
   | Some x => Ok x
   | None => Raise ValueError
   end,
   snd (usbtmc.query self (command q) 20 w)).
Proof.
  unfold response.
  destruct (query_never_raises self (command q) 20 w eq_refl) as [s Hs].
  assert (H : forall k : string -> M float,
             k = RigolScope.float ->
             bind (usbtmc.query self (command q) 20) k w =
             (match Py.float_of_str s with
              | Some x => Ok x
              | None => Raise ValueError
              end, snd (usbtmc.query self (command q) 20 w))).
  { intros k ->. unfold bind.
    destruct (usbtmc.query self (command q) 20 w) as [r w1].
    simpl in Hs; subst r. simpl.
    unfold RigolScope.float, lift.
    destruct (Py.float_of_str s); reflexivity. }
  rewrite Hs. destruct q; apply H; reflexivity.
Qed.

(** C5. A numeric query whose response is not a numeral, and in
    particular one whose read failed or timed out and so came back empty,
    raises [ValueError] (the malformed-response error of the
    specification) to its caller; it returns no number. *)
Theorem malformed_response_raises (q : numeric_query) (self : Self) (w : World) :
  Py.float_of_str (response q self w) = None \/
  (exists e, answers w (S (calls w)) = Failed e) ->
  ask q self w =
  (Raise ValueError, snd (usbtmc.query self (command q) 20 w)).
Proof.
  intros H. rewrite ask_spec.
  assert (Hn : Py.float_of_str (response q self w) = None).
  { destruct H as [H|[e He]]; [exact H|].
    unfold response. rewrite (query_failed_read self (command q) 20 e w eq_refl He).
    reflexivity. }
  rewrite Hn. reflexivity.
Qed.

Lemma malformed_response_witness :
  answers mute (S (calls mute)) = Failed ETIMEDOUT /\
  ask TimeScale scope0 mute =
  (Raise ValueError,
   mkWorld (answers mute) 2
     [OsWrite 3 ":TIM:SCAL?"; OsRead 3 20;
      LogErr "Read Error: Read timeout" None] false).
Proof.
  split; [reflexivity|].
  apply (malformed_response_raises TimeScale scope0 mute).
  right. exists ETIMEDOUT. reflexivity.
Defined.

(** A number comes back only when the response is a numeral for it. *)
Lemma ask_returns_parsed (q : numeric_query) (self : Self) (w w' : World)
    (x : float) :
  ask q self w = (Ok x, w') ->
  Py.float_of_str (response q self w) = Some x.
Proof.
  rewrite ask_spec. destruct (Py.float_of_str (response q self w));
    intros H; inversion H; reflexivity.
Qed.

Example voltscale_garbage :
  fst (RigolScope.getVoltScale scope0 (PInt 1)
         (mkWorld (script [Done 12 ""; Done 0 "1.0V"]) 0 [] false))
  = Raise ValueError.
Proof. reflexivity. Qed.

Example voltscale_numeral :
  fst (RigolScope.getVoltScale scope0 (PInt 1)
         (mkWorld (script [Done 12 ""; Done 0 "5.000e-01"]) 0 [] false))
  = Ok 0.5%float.
Proof. reflexivity. Qed.

(** ** Decoding a raw waveform *)

Lemma frombuffer_preamble (raw : string) :
  numpy.frombuffer raw RIGOL_WAV_PREAMBLE_LENGTH =
  if (String.length raw <? 10)%nat then None
  else Some (map numpy.byte_val (skipn 10 (list_ascii_of_string raw))).
Proof.
  unfold numpy.frombuffer, RIGOL_WAV_PREAMBLE_LENGTH.
  destruct (Nat.ltb_spec (String.length raw) 10) as [H|H];
    destruct (Z.ltb_spec (Z.of_nat (String.length raw)) 10) as [H'|H'];
    try lia; reflexivity.
Qed.

Lemma length_list_ascii (s : string) :
  List.length (list_ascii_of_string s) = String.length s.
Proof. induction s as [|c s IH]; simpl; [reflexivity | now rewrite IH]. Qed.

Lemma byte_val_uint8 (c : ascii) : uint8 (numpy.byte_val c).
Proof.
  unfold uint8, numpy.byte_val. pose proof (nat_ascii_bounded c). lia.
Qed.

Lemma readRawData_never_raises (self : Self) (chan : pyval) (w : World) :
  exists raw, fst (RigolScope.readRawData self chan w) = Ok raw.
Proof. apply (query_never_raises self _ 9000 w eq_refl). Qed.

Lemma readData_spec (self : Self) (chan : pyval) (w w1 : World) (raw : string) :
  RigolScope.readRawData self chan w = (Ok raw, w1) ->
  RigolScope.readData self chan w =
  (match numpy.frombuffer raw RIGOL_WAV_PREAMBLE_LENGTH with
   | Some samples => Ok samples
   | None => Raise ValueError
   end, w1).
Proof.
  intros H. unfold RigolScope.readData, bind. rewrite H.
  unfold lift. destruct (numpy.frombuffer raw RIGOL_WAV_PREAMBLE_LENGTH);
    reflexivity.
Qed.

(** C2, as the code has it.  A raw waveform of [L >= 10] bytes decodes to
    its [L - 10] last bytes, each an unsigned 8-bit sample; a raw waveform
    of fewer than 10 bytes does not decode: [numpy.frombuffer] refuses an
    offset beyond the buffer and [readData] raises [ValueError]. *)
Theorem readData_drops_preamble (self : Self) (chan : pyval) (w w1 : World)
    (raw : string) :
  RigolScope.readRawData self chan w = (Ok raw, w1) ->
  ((10 <= String.length raw)%nat ->
   exists samples,
     RigolScope.readData self chan w = (Ok samples, w1) /\
     List.length samples = (String.length raw - 10)%nat /\
     Forall uint8 samples /\
     samples = map numpy.byte_val (skipn 10 (list_ascii_of_string raw))) /\
  ((String.length raw < 10)%nat ->
   RigolScope.readData self chan w = (Raise ValueError, w1)).
Proof.
  intros H. rewrite (readData_spec self chan w w1 raw H), frombuffer_preamble.
  split; intros HL.
  - destruct (Nat.ltb_spec (String.length raw) 10); [lia|].
    eexists; split; [reflexivity|]. split; [|split; [|reflexivity]].
    + rewrite length_map, length_skipn, length_list_ascii. reflexivity.
    + apply Forall_map, Forall_forall. intros c _. apply byte_val_uint8.
  - destruct (Nat.ltb_spec (String.length raw) 10); [reflexivity|lia].
Qed.

Lemma readData_drops_preamble_witness :
  RigolScope.readRawData scope0 (PInt 1) one_sample
  = (Ok (preamble ++ wave 1 "130"),
     snd (RigolScope.readRawData scope0 (PInt 1) one_sample)) /\
  RigolScope.readData scope0 (PInt 1) one_sample
  = (Ok [130], snd (RigolScope.readRawData scope0 (PInt 1) one_sample)).
Proof.
  split; [reflexivity|].
  destruct (readData_drops_preamble scope0 (PInt 1) one_sample
              (snd (RigolScope.readRawData scope0 (PInt 1) one_sample))
              (preamble ++ wave 1 "130") eq_refl) as [Hlong _].
  destruct (Hlong ltac:(simpl; lia)) as [samples [Hrun [_ [_ Hs]]]].
  rewrite Hrun, Hs. reflexivity.
Defined.

(** C2, as stated, fails: five bytes, and the empty string that a timed
    out read leaves, raise [ValueError] instead of decoding to no sample. *)
Lemma readData_short_raises :
  RigolScope.readRawData scope0 (PInt 1) short_wave
  = (Ok "#8000", snd (RigolScope.readRawData scope0 (PInt 1) short_wave)) /\
  fst (RigolScope.readData scope0 (PInt 1) short_wave) = Raise ValueError /\
  fst (RigolScope.readData scope0 (PInt 1) short_wave) <> Ok [] /\
  fst (RigolScope.readRawData scope0 (PInt 1) mute) = Ok "" /\
  fst (RigolScope.readData scope0 (PInt 1) mute) = Raise ValueError.
Proof.
  repeat split; try reflexivity. discriminate.
Qed.

Lemma readData_uint8 (self : Self) (chan : pyval) (w w1 : World)
    (data : list Z) :
  RigolScope.readData self chan w = (Ok data, w1) -> Forall uint8 data.
Proof.
  intros H.
  destruct (RigolScope.readRawData self chan w) as [[raw|e] w0] eqn:Hraw.
  - rewrite (readData_spec self chan w w0 raw Hraw), frombuffer_preamble in H.
    destruct (String.length raw <? 10)%nat; inversion H; subst.
    apply Forall_map, Forall_forall. intros c _. apply byte_val_uint8.
  - destruct (readRawData_never_raises self chan w) as [raw Hr].
    rewrite Hraw in Hr. discriminate.
Qed.

(** ** Scaling to volts *)

Lemma scale_sample (s : Z) (q voltscale : float) :
  uint8 s ->
  ((numpy.of_int ((255 - s) mod 256) - 130 - q * 25) / 25 * voltscale)%float
  = ((numpy.of_int (255 - s) - 130 - q * 25) / 25 * voltscale)%float.
Proof.
  unfold uint8. intros H. rewrite Z.mod_small by lia. reflexivity.
Qed.

(** C1. When the voltage scale is not zero, [getScaledWaveform] maps
    every sample [s] to
    [((255 - s) - 130.0 - (voltOffset / voltScale) * 25.0) / 25.0 * voltScale],
    computed in binary64 in that order; for scale 100, offset 0 and sample
    130 that is exactly -20.0. *)
Theorem getScaledWaveform_arithmetic (self : Self) (chan : pyval)
    (w w1 w2 w3 : World) (data : list Z) (voltScale voltOffset : float) :
  RigolScope.readData self chan w = (Ok data, w1) ->
  RigolScope.getVoltScale self chan w1 = (Ok voltScale, w2) ->
  RigolScope.getVoltOffset self chan w2 = (Ok voltOffset, w3) ->
  PrimFloat.eqb voltScale zero = false ->
  RigolScope.getScaledWaveform self chan w =
  (Ok (map (fun s => scaleVoltage s voltScale voltOffset) data), w3) /\
  scaleVoltage 130 100 0 = (-20)%float.
Proof.
  intros Hd Hs Ho Hz. split; [|reflexivity].
  pose proof (readData_uint8 self chan w w1 data Hd) as Hb.
  unfold RigolScope.getScaledWaveform, bind. rewrite Hd, Hs, Ho.
  unfold Py.truediv. rewrite Hz. simpl.
  unfold ret. do 2 f_equal.
  unfold numpy.mul_f, numpy.div_f, numpy.sub_f, numpy.sub_u8_f, numpy.rsub_u8.
  rewrite !map_map. apply map_ext_in. intros s Hin.
  rewrite Forall_forall in Hb. unfold scaleVoltage.
  apply scale_sample, Hb, Hin.
Qed.

Lemma getScaledWaveform_arithmetic_witness :
  PrimFloat.eqb 100 zero = false /\
  fst (RigolScope.getScaledWaveform scope0 (PInt 1) one_sample)
  = Ok [(-20)%float].
Proof.
  split; [reflexivity|].
  pose proof (getScaledWaveform_arithmetic scope0 (PInt 1) one_sample
    (snd (RigolScope.readData scope0 (PInt 1) one_sample))
    (snd (RigolScope.getVoltScale scope0 (PInt 1)
            (snd (RigolScope.readData scope0 (PInt 1) one_sample))))
    (snd (RigolScope.getScaledWaveform scope0 (PInt 1) one_sample))
    [130] 100%float 0%float eq_refl eq_refl eq_refl eq_refl) as [H _].
  rewrite H. reflexivity.
Defined.

(** X20. A zero voltage scale (of either sign) stops the scaling with
    [ZeroDivisionError], after the waveform, the scale and the offset
    have been read. *)
Lemma getScaledWaveform_zero_scale (self : Self) (chan : pyval)
    (w w1 w2 w3 : World) (data : list Z) (voltScale voltOffset : float) :
  RigolScope.readData self chan w = (Ok data, w1) ->
  RigolScope.getVoltScale self chan w1 = (Ok voltScale, w2) ->
  RigolScope.getVoltOffset self chan w2 = (Ok voltOffset, w3) ->
  PrimFloat.eqb voltScale zero = true ->
  RigolScope.getScaledWaveform self chan w = (Raise ZeroDivisionError, w3).
Proof.
  intros Hd Hs Ho Hz.
  unfold RigolScope.getScaledWaveform, bind. rewrite Hd, Hs, Ho.
  unfold Py.truediv. rewrite Hz. reflexivity.
Qed.

(** ** The time axis *)

Lemma getTimeAxis_spec (self : Self) (w w1 w2 : World)
    (timescale timeoffset : float) :
  RigolScope.getTimeScale self w = (Ok timescale, w1) ->
  RigolScope.getTimeOffset self w1 = (Ok timeoffset, w2) ->
  RigolScope.getTimeAxis self w =
  (Ok (numpy.linspace (- (300 / 50 * timescale)) (300 / 50 * timescale) 600),
   w2).
Proof.
  intros Hs Ho. unfold RigolScope.getTimeAxis, bind. rewrite Hs, Ho.
  reflexivity.
Qed.

(** C4. The time axis does not depend on the time offset: two runs with
    the same time scale and any two offsets return the same axis. *)
Theorem time_axis_ignores_offset (self : Self) (wa wa1 wa2 wb wb1 wb2 : World)
    (timescale offset_a offset_b : float) :
  RigolScope.getTimeScale self wa = (Ok timescale, wa1) ->
  RigolScope.getTimeOffset self wa1 = (Ok offset_a, wa2) ->
  RigolScope.getTimeScale self wb = (Ok timescale, wb1) ->
  RigolScope.getTimeOffset self wb1 = (Ok offset_b, wb2) ->
  exists time,
    RigolScope.getTimeAxis self wa = (Ok time, wa2) /\
    RigolScope.getTimeAxis self wb = (Ok time, wb2).
Proof.
  intros Hsa Hoa Hsb Hob. eexists. split.
  - apply (getTimeAxis_spec self wa wa1 wa2 timescale offset_a Hsa Hoa).
  - apply (getTimeAxis_spec self wb wb1 wb2 timescale offset_b Hsb Hob).
Qed.

Lemma time_axis_ignores_offset_witness :
  fst (RigolScope.getTimeOffset scope0
         (snd (RigolScope.getTimeScale scope0 (timebase "0.000e+00"))))
  = Ok 0%float /\
  fst (RigolScope.getTimeOffset scope0
         (snd (RigolScope.getTimeScale scope0 (timebase "-2.500e+00"))))
  = Ok (-2.5)%float /\
  fst (RigolScope.getTimeAxis scope0 (timebase "0.000e+00"))
  = fst (RigolScope.getTimeAxis scope0 (timebase "-2.500e+00")).
Proof.
  split; [reflexivity|]. split; [reflexivity|].
  destruct (time_axis_ignores_offset scope0
    (timebase "0.000e+00")
    (snd (RigolScope.getTimeScale scope0 (timebase "0.000e+00")))
    (snd (RigolScope.getTimeAxis scope0 (timebase "0.000e+00")))
    (timebase "-2.500e+00")
    (snd (RigolScope.getTimeScale scope0 (timebase "-2.500e+00")))
    (snd (RigolScope.getTimeAxis scope0 (timebase "-2.500e+00")))
    1%float 0%float (-2.5)%float eq_refl eq_refl eq_refl eq_refl)
    as [time [Ha Hb]].
  rewrite Ha, Hb. reflexivity.
Defined.

(** An offset that is not a numeral does stop [getTimeAxis]: the offset
    is fetched, though not used. *)
Example time_axis_bad_offset :
  fst (RigolScope.getTimeAxis scope0 (timebase "")) = Raise ValueError.
Proof. reflexivity. Qed.

(** C3, as the code has it.  At one second per division and for any
    offset the axis has 600 strictly increasing points from exactly -6.0
    to exactly 6.0.  The points 299 and 300 are exact opposites, point 300
    being the first positive one, and no point is nearer to zero than
    they are; the points [i] and [599 - i] are opposite up to the
    rounding of the end points, 2^-50. *)
Theorem time_axis_unit_scale (self : Self) (w w1 w2 : World)
    (timeoffset : float) :
  RigolScope.getTimeScale self w = (Ok 1%float, w1) ->
  RigolScope.getTimeOffset self w1 = (Ok timeoffset, w2) ->
  exists time,
    RigolScope.getTimeAxis self w = (Ok time, w2) /\
    List.length time = 600%nat /\
    increasing time = true /\
    at_ time 0 = (-6)%float /\
    at_ time 599 = 6%float /\
    at_ time 299 = (- at_ time 300)%float /\
    PrimFloat.ltb 0 (at_ time 300) = true /\
    nearest_zero time 300 = true /\
    nearest_zero time 299 = true /\
    mirrored 0x1p-50%float time = true.
Proof.
  intros Hs Ho. eexists. split.
  - apply (getTimeAxis_spec self w w1 w2 1%float timeoffset Hs Ho).
  - repeat split; vm_compute; reflexivity.
Qed.

Lemma time_axis_unit_scale_witness :
  fst (RigolScope.getTimeScale scope0 (timebase "-2.500e+00")) = Ok 1%float /\
  exists time,
    fst (RigolScope.getTimeAxis scope0 (timebase "-2.500e+00")) = Ok time /\
    List.length time = 600%nat /\
    at_ time 0 = (-6)%float /\
    at_ time 599 = 6%float.
Proof.
  split; [reflexivity|].
  destruct (time_axis_unit_scale scope0
    (timebase "-2.500e+00")
    (snd (RigolScope.getTimeScale scope0 (timebase "-2.500e+00")))
    (snd (RigolScope.getTimeAxis scope0 (timebase "-2.500e+00")))
    (-2.5)%float eq_refl eq_refl)
    as [time [Hrun [Hlen [_ [H0 [H599 _]]]]]].
  exists time. rewrite Hrun. repeat split; assumption.
Defined.

(** C3, as stated, fails: point 300 is not the one point nearest to
    zero, point 299 is exactly as near (they are -0.01001669449081799 and
    0.01001669449081799); and the mirror image of a point is not always a
    point of the axis, as for points 6 and 593 (-5.8797996661101832 and
    5.8797996661101841). *)
Lemma time_axis_middle_tie :
  exists time,
    fst (RigolScope.getTimeAxis scope0 (timebase "0.000e+00")) = Ok time /\
    at_ time 299 = (-0x1.483a1fa0446p-7)%float /\
    at_ time 300 = 0x1.483a1fa0446p-7%float /\
    abs (at_ time 299) = abs (at_ time 300) /\
    PrimFloat.ltb (abs (at_ time 300)) (abs (at_ time 299)) = false /\
    at_ time 6 = (-0x1.784ea3423e65bp+2)%float /\
    at_ time 593 = 0x1.784ea3423e65cp+2%float /\
    PrimFloat.eqb (at_ time 6) (- at_ time 593) = false.
Proof.
  eexists. split; [reflexivity|].
  repeat split; vm_compute; reflexivity.
Qed.

(** ** Frame: what the acquisition leaves alone *)

Create HintDb quiet.

Lemma quiet_ret {A : Type} (a : A) : quiet (ret a).
Proof.
  intros w. exists []. simpl. rewrite app_nil_r. repeat split.
Qed.

Lemma quiet_raise {A : Type} (e : exn) : quiet (@raise A e).
Proof.
  intros w. exists []. simpl. rewrite app_nil_r. repeat split.
Qed.

Lemma quiet_lift {A : Type} (e : exn) (o : option A) : quiet (lift e o).
Proof. destruct o; [apply quiet_ret | apply quiet_raise]. Qed.

Lemma quiet_bind {A B : Type} (m : M A) (f : A -> M B) :
  quiet m -> (forall a, quiet (f a)) -> quiet (bind m f).
Proof.
  intros Hm Hf w. unfold bind.
  destruct (Hm w) as [e1 [T1 [S1 C1]]].
  destruct (m w) as [[a|e] w1]; simpl in *.
  - destruct (Hf a w1) as [e2 [T2 [S2 C2]]].
    exists (e1 ++ e2)%list. rewrite T2, T1, app_assoc, forallb_app, S1, S2.
    repeat split. congruence.
  - exists e1. repeat split; assumption.
Qed.

Lemma quiet_try {A : Type} (m : M A) (h : Z -> M A) :
  quiet m -> (forall n, quiet (h n)) -> quiet (try_OSError m h).
Proof.
  intros Hm Hh w. unfold try_OSError.
  destruct (Hm w) as [e1 [T1 [S1 C1]]].
  destruct (m w) as [[a|[n| | | | |]] w1]; simpl in *;
    try (exists e1; repeat split; assumption).
  destruct (Hh n w1) as [e2 [T2 [S2 C2]]].
  exists (e1 ++ e2)%list. rewrite T2, T1, app_assoc, forallb_app, S1, S2.
  repeat split. congruence.
Qed.

Lemma quiet_syscall (ev : event) :
  silent_event ev = true -> quiet (syscall ev).
Proof.
  intros H w. exists [ev]. simpl. rewrite H. repeat split.
Qed.

Lemma quiet_print_stderr (msg : string) (e : option exn) :
  quiet (print_stderr msg e).
Proof. intros w. exists [LogErr msg e]. repeat split. Qed.

#[local] Hint Resolve quiet_ret quiet_raise quiet_lift quiet_bind quiet_try
  quiet_print_stderr : quiet.

Lemma quiet_os_write (fd : Z) (data : string) : quiet (os.write fd data).
Proof.
  apply quiet_bind; [apply quiet_syscall; reflexivity|].
  intros [k d|e]; auto with quiet.
Qed.

Lemma quiet_os_read (fd n : Z) : quiet (os.read fd n).
Proof.
  unfold os.read. destruct (negb (fits_int n)); [apply quiet_raise|].
  destruct (n <? 0); [apply quiet_raise|].
  apply quiet_bind; [apply quiet_syscall; reflexivity|].
  intros [k d|e]; auto with quiet.
Qed.

Lemma quiet_fopen (name : string) : quiet (fopen name).
Proof.
  apply quiet_bind; [apply quiet_syscall; reflexivity|].
  intros [k d|e]; auto with quiet.
Qed.

Lemma quiet_write (self : Self) (cmd : string) : quiet (usbtmc.write self cmd).
Proof.
  apply quiet_try; [apply quiet_os_write | auto with quiet].
Qed.

Lemma quiet_read (self : Self) (n : Z) : quiet (usbtmc.read self n).
Proof.
  apply quiet_try; [apply quiet_os_read|].
  intros e. apply quiet_bind; [|auto with quiet].
  destruct (e =? ETIMEDOUT); auto with quiet.
Qed.

Lemma quiet_query (self : Self) (cmd : string) (n : Z) :
  quiet (usbtmc.query self cmd n).
Proof.
  apply quiet_bind; [apply quiet_write | intros; apply quiet_read].
Qed.

#[local] Hint Resolve quiet_write quiet_read quiet_query quiet_fopen : quiet.

Lemma quiet_ask (q : numeric_query) (self : Self) : quiet (ask q self).
Proof.
  destruct q; simpl;
    (apply quiet_bind; [apply quiet_query | intros; apply quiet_lift]).
Qed.

Lemma quiet_readData (self : Self) (chan : pyval) :
  quiet (RigolScope.readData self chan).
Proof.
  apply quiet_bind; [apply quiet_query | intros; apply quiet_lift].
Qed.

Lemma quiet_getScaledWaveform (self : Self) (chan : pyval) :
  quiet (RigolScope.getScaledWaveform self chan).
Proof.
  apply quiet_bind; [apply quiet_readData | intros data].
  apply quiet_bind; [apply (quiet_ask (VoltScale chan)) | intros vs].
  apply quiet_bind; [apply (quiet_ask (VoltOffset chan)) | intros vo].
  auto with quiet.
Qed.

Lemma quiet_getTimeAxis (self : Self) : quiet (RigolScope.getTimeAxis self).
Proof.
  apply quiet_bind; [apply (quiet_ask TimeScale) | intros ts].
  apply quiet_bind; [apply (quiet_ask TimeOffset) | intros t0].
  auto with quiet.
Qed.

Lemma quiet_at {A : Type} (m : M A) (w w' : World) (r : result A) :
  quiet m -> m w = (r, w') ->
  exists evs,
    trace w' = (trace w ++ evs)%list /\
    forallb silent_event evs = true /\
    stdout_closed w' = stdout_closed w.
Proof. intros H E. specialize (H w). rewrite E in H. exact H. Qed.

(** ** Strings, lines and cells *)

Lemma append_assoc (a b c : string) : (a ++ b) ++ c = a ++ (b ++ c).
Proof. induction a as [|x a IH]; simpl; [reflexivity | now rewrite IH]. Qed.

Lemma append_nil_r (a : string) : a ++ "" = a.
Proof. induction a as [|x a IH]; simpl; [reflexivity | now rewrite IH]. Qed.

Lemma free_of_app (sep : ascii) (a b : string) :
  free_of sep (a ++ b) = free_of sep a && free_of sep b.
Proof.
  induction a as [|x a IH]; simpl; [reflexivity|].
  rewrite IH, andb_assoc. reflexivity.
Qed.

Lemma plain_app (a b : string) : plain (a ++ b) = plain a && plain b.
Proof.
  unfold plain. rewrite !free_of_app.
  destruct (free_of "009" a), (free_of "009" b), (free_of "010" a);
    reflexivity.
Qed.

Lemma split_app (sep : ascii) (a b : string) :
  free_of sep a = true ->
  split sep (a ++ String sep b) = a :: split sep b.
Proof.
  induction a as [|x a IH]; simpl; intros H.
  - rewrite Ascii.eqb_refl. reflexivity.
  - apply andb_true_iff in H as [Hx Ha].
    apply negb_true_iff in Hx. rewrite Hx, (IH Ha). reflexivity.
Qed.

Lemma split_free (sep : ascii) (a : string) :
  free_of sep a = true -> split sep a = [a].
Proof.
  induction a as [|x a IH]; simpl; intros H; [reflexivity|].
  apply andb_true_iff in H as [Hx Ha].
  apply negb_true_iff in Hx. rewrite Hx, (IH Ha). reflexivity.
Qed.

Lemma split_unlines (ls : list string) :
  Forall (fun l => free_of "010" l = true) ls ->
  split "010" (unlines ls) = (ls ++ [""])%list.
Proof.
  induction 1 as [|l ls Hl _ IH]; simpl; [reflexivity|].
  rewrite (split_app "010" l (unlines ls) Hl), IH. reflexivity.
Qed.

Lemma lines_unlines (ls : list string) :
  Forall (fun l => free_of "010" l = true) ls ->
  lines (unlines ls) = ls.
Proof.
  intros H. unfold lines. rewrite (split_unlines ls H).
  apply removelast_last.
Qed.

(** *** The cells of a formatted number *)

Lemma plain_digit_char (q : Z) : plain (String (Py.digit_char (q mod 10)) "") = true.
Proof.
  unfold Py.digit_char.
  pose proof (Z.mod_pos_bound q 10 ltac:(lia)) as H.
  remember (Z.to_nat (q mod 10)) as k eqn:Hk.
  assert (Hlt : (k < 10)%nat) by lia. clear Hk H.
  do 10 (destruct k as [|k]; [reflexivity|]). lia.
Qed.

Lemma plain_dec_digits (n : nat) (q : Z) : plain (Py.dec_digits n q) = true.
Proof.
  revert q. induction n as [|n IH]; intros q; simpl; [reflexivity|].
  rewrite plain_app, IH, plain_digit_char. reflexivity.
Qed.

Lemma plain_cons (c : ascii) (s : string) :
  plain (String c s) = plain (String c "") && plain s.
Proof. apply (plain_app (String c "") s). Qed.

Lemma plain_mantissa_field (p : nat) (q : Z) :
  plain (Py.mantissa_field p q) = true.
Proof.
  unfold Py.mantissa_field.
  pose proof (plain_dec_digits (S p) q) as H.
  destruct (Py.dec_digits (S p) q) as [|c r]; [reflexivity|].
  rewrite plain_cons in H. apply andb_true_iff in H as [Hc Hr].
  rewrite plain_cons, Hc. destruct p; simpl; [exact Hr|].
  rewrite plain_cons, Hr. reflexivity.
Qed.

Lemma plain_exp_field (k : Z) : plain (Py.exp_field k) = true.
Proof.
  unfold Py.exp_field. rewrite plain_app.
  destruct (k <? 0), (Z.abs k <? 100);
    rewrite plain_dec_digits; reflexivity.
Qed.

Lemma plain_sign_field (s : bool) : plain (Py.sign_field s) = true.
Proof. destruct s; reflexivity. Qed.

Lemma plain_fmt_e (p : nat) (x : float) : plain (Py.fmt_e p x) = true.
Proof.
  unfold Py.fmt_e. destruct (Prim2SF x) as [s|s| |s m e].
  - rewrite !plain_app, plain_sign_field, plain_mantissa_field,
      plain_exp_field. reflexivity.
  - rewrite plain_app, plain_sign_field. reflexivity.
  - reflexivity.
  - destruct (if 0 <=? e then Py.sci_digits p (Z.pos m * 2 ^ e) 1
              else Py.sci_digits p (Z.pos m) (2 ^ (- e))) as [q k].
    rewrite !plain_app, plain_sign_field, plain_mantissa_field,
      plain_exp_field. reflexivity.
Qed.

Lemma fmt_e_free (sep : ascii) (p : nat) (x : float) :
  sep = "009"%char \/ sep = "010"%char ->
  free_of sep (Py.fmt_e p x) = true.
Proof.
  pose proof (plain_fmt_e p x) as H. unfold plain in H.
  apply andb_true_iff in H as [Ht Hn]. intros [->| ->]; assumption.
Qed.

Lemma split_line (t d1 d2 : float) :
  split "009" (line t d1 d2) =
  [Py.fmt_e 4 t; Py.fmt_e 3 d1; Py.fmt_e 3 d2].
Proof.
  unfold line.
  rewrite split_app by (apply fmt_e_free; now left).
  rewrite split_app by (apply fmt_e_free; now left).
  rewrite split_free by (apply fmt_e_free; now left).
  reflexivity.
Qed.

Lemma line_free (t d1 d2 : float) : free_of "010" (line t d1 d2) = true.
Proof.
  unfold line. rewrite free_of_app. simpl. rewrite free_of_app. simpl.
  rewrite !fmt_e_free by now right. reflexivity.
Qed.

Lemma row_line (t d1 d2 : float) (rest : string) :
  RigolScope.row t d1 d2 ++ rest = line t d1 d2 ++ String "010" rest.
Proof.
  unfold RigolScope.row, line, tab, newline.
  rewrite !append_assoc. simpl. rewrite !append_assoc. simpl.
  reflexivity.
Qed.

Lemma header_line_eq (rest : string) :
  RigolScope.header ++ rest = header_line ++ String "010" rest.
Proof. reflexivity. Qed.

Example zero_cell : Py.fmt_e 3 zero = "0.000e+00".
Proof. reflexivity. Qed.

(** ** Serialising the table *)

Lemma log_all_nil (w : World) : log_all [] w = w.
Proof. destruct w. unfold log_all. simpl. rewrite app_nil_r. reflexivity. Qed.

Lemma log_all_log (ev : event) (evs : list event) (w : World) :
  log_all evs (log ev w) = log_all (ev :: evs) w.
Proof. unfold log_all, log. simpl. rewrite <- app_assoc. reflexivity. Qed.

Lemma row_outcome (fd : stream) (data1 data2 time : list float) (i : nat)
    (w : World) :
  match (t <- getitem time i ;;
         d1 <- getitem data1 i ;;
         d2 <- getitem data2 i ;;
         fwrite fd (RigolScope.row t d1 d2)) w with
  | (Ok _, w') =>
      w' = log (FWrite fd (RigolScope.row (at_ time i) (at_ data1 i)
                             (at_ data2 i))) w
  | (Raise _, w') => w' = w
  end.
Proof.
  unfold bind, getitem, lift, at_.
  destruct (nth_error time i) as [t|] eqn:Et; simpl; [|reflexivity].
  destruct (nth_error data1 i) as [a|] eqn:Ea; simpl; [|reflexivity].
  destruct (nth_error data2 i) as [b|] eqn:Eb; simpl; [|reflexivity].
  rewrite (nth_error_nth _ _ nan Et), (nth_error_nth _ _ nan Ea),
    (nth_error_nth _ _ nan Eb).
  destruct fd; simpl; [destruct (stdout_closed w)|]; reflexivity.
Qed.

Lemma loop_outcome (fd : stream) (data1 data2 time : list float) (n i : nat)
    (w : World) :
  match for_range i n (fun i =>
          t <- getitem time i ;;
          d1 <- getitem data1 i ;;
          d2 <- getitem data2 i ;;
          fwrite fd (RigolScope.row t d1 d2)) w with
  | (Ok _, w') =>
      w' = log_all
             (map (fun j => FWrite fd (RigolScope.row (at_ time j)
                                         (at_ data1 j) (at_ data2 j)))
                  (seq i n)) w
  | (Raise _, w') => stdout_closed w' = stdout_closed w
  end.
Proof.
  set (body := fun i : nat => _).
  revert i w. induction n as [|n IH]; intros i w.
  - simpl. rewrite log_all_nil. reflexivity.
  - cbn [for_range]. unfold bind.
    pose proof (row_outcome fd data1 data2 time i w) as Hrow.
    fold (body i) in Hrow.
    destruct (body i w) as [[u|e] w1]; [|now subst].
    subst w1.
    set (w1 := log (FWrite fd (RigolScope.row (at_ time i) (at_ data1 i)
                                 (at_ data2 i))) w).
    specialize (IH (S i) w1).
    destruct (for_range (S i) n body w1) as [[u'|e] w2].
    + rewrite IH. unfold w1. rewrite log_all_log. reflexivity.
    + rewrite IH. reflexivity.
Qed.

Lemma serializer_outcome (self : Self) (fd : stream)
    (data1 data2 time : list float) (w : World) :
  match RigolScope._writeChannelDataToFile self fd data1 data2 time w with
  | (Ok _, w') =>
      w' = log_all (FWrite fd RigolScope.header
                      :: rows_written fd time data1 data2) w
  | (Raise _, w') => stdout_closed w' = stdout_closed w
  end.
Proof.
  unfold RigolScope._writeChannelDataToFile, bind at 1.
  pose proof (loop_outcome fd data1 data2 time (numpy.size time) 0
                (log (FWrite fd RigolScope.header) w)) as Hloop.
  assert (Hw : fwrite fd RigolScope.header w =
               (Ok tt, log (FWrite fd RigolScope.header) w) \/
               fwrite fd RigolScope.header w = (Raise ValueError, w)).
  { destruct fd; simpl; [destruct (stdout_closed w)|]; auto. }
  destruct Hw as [-> | ->]; [|reflexivity].
  destruct (for_range 0 (numpy.size time) _ _) as [[u|e] w1].
  - rewrite Hloop, log_all_log. reflexivity.
  - rewrite Hloop. reflexivity.
Qed.

Lemma length_removelast_cons {A : Type} (a : A) (l : list A) :
  List.length (removelast (a :: l)) = List.length l.
Proof.
  rewrite removelast_firstn_len, length_firstn. simpl. lia.
Qed.

Lemma set_last_length (y : list float) (v : float) :
  List.length (numpy.set_last y v) = List.length y.
Proof.
  destruct y as [|a l]; [reflexivity|].
  unfold numpy.set_last. rewrite length_app, length_removelast_cons.
  simpl. lia.
Qed.

Lemma linspace_length (start stop : float) (num : nat) :
  List.length (numpy.linspace start stop num) = num.
Proof.
  unfold numpy.linspace.
  destruct (1 <? num)%nat;
    [destruct (PrimFloat.eqb _ zero)|];
    rewrite ?set_last_length, !length_map, length_seq; reflexivity.
Qed.

Lemma getTimeAxis_length (self : Self) (w w1 : World) (time : list float) :
  RigolScope.getTimeAxis self w = (Ok time, w1) ->
  List.length time = 600%nat.
Proof.
  unfold RigolScope.getTimeAxis, bind.
  destruct (RigolScope.getTimeScale self w) as [[ts|e] wa]; [|discriminate].
  destruct (RigolScope.getTimeOffset self wa) as [[t0|e] wb]; [|discriminate].
  unfold ret. intros H. inversion H. apply linspace_length.
Qed.

(** ** [writeWaveformToFile] *)

Lemma open_target (filename : string) (w w0 : World) (fd : stream) :
  (if String.eqb filename "" then ret Stdout else fopen filename) w
  = (Ok fd, w0) ->
  fd = target filename.
Proof.
  unfold target. destruct (String.eqb filename "").
  - intros H. inversion H. reflexivity.
  - unfold fopen, bind, syscall. simpl.
    destruct (answers w (calls w)); intros H; inversion H. reflexivity.
Qed.

Lemma quiet_open (filename : string) :
  quiet (if String.eqb filename "" then ret Stdout else fopen filename).
Proof. destruct (String.eqb filename ""); auto with quiet. Qed.

Lemma quiet_channel (self : Self) (k : Z) (req : bool) (z : list float) :
  quiet (if req then RigolScope.getScaledWaveform self (PInt k) else ret z).
Proof.
  destruct req; [apply quiet_getScaledWaveform | apply quiet_ret].
Qed.

Lemma channel_zeros (self : Self) (k : Z) (req : bool) (z d : list float)
    (w w' : World) :
  (if req then RigolScope.getScaledWaveform self (PInt k) else ret z) w
  = (Ok d, w') ->
  req = false -> d = z.
Proof. intros H ->. inversion H. reflexivity. Qed.

Lemma fclose_spec (fd : stream) (w : World) :
  fclose fd w =
  (Ok tt,
   mkWorld (answers w) (calls w) (trace w ++ [FClose fd])%list
     (match fd with Stdout => true | File _ => stdout_closed w end)).
Proof. destruct fd; reflexivity. Qed.

(** The two tests on the channel selector, under their name. *)
Ltac fold_requested chan :=
  change (py_eq (if py_eq chan (PStr "BOTH") then PInt 3 else chan) (PInt 1)
          || py_eq (if py_eq chan (PStr "BOTH") then PInt 3 else chan)
               (PInt 3)) with (requested 1 chan);
  change (py_eq (if py_eq chan (PStr "BOTH") then PInt 3 else chan) (PInt 2)
          || py_eq (if py_eq chan (PStr "BOTH") then PInt 3 else chan)
               (PInt 3)) with (requested 2 chan).

(** Every outcome of [writeWaveformToFile]: when it returns, what it has
    written and closed; when it raises, that it has closed nothing. *)
Lemma writeWaveformToFile_outcome (self : Self) (filename : string)
    (chan : pyval) (w : World) :
  match RigolScope.writeWaveformToFile self filename chan w with
  | (Ok _, w') =>
      exists pre time data1 data2 w0 w1,
        forallb silent_event pre = true /\
        RigolScope.getTimeAxis self w0 = (Ok time, w1) /\
        List.length time = 600%nat /\
        (requested 1 chan = false -> data1 = numpy.zeros 600) /\
        (requested 2 chan = false -> data2 = numpy.zeros 600) /\
        trace w' =
        (trace w ++ pre
           ++ FWrite (target filename) RigolScope.header
           :: rows_written (target filename) time data1 data2
           ++ [FClose (target filename)])%list /\
        stdout_closed w' = (String.eqb filename "" || stdout_closed w)
  | (Raise _, w') => stdout_closed w' = stdout_closed w
  end.
Proof.
  unfold RigolScope.writeWaveformToFile. cbv zeta. fold_requested chan.
  unfold bind.
  destruct ((if String.eqb filename "" then ret Stdout else fopen filename) w)
    as [[fd|e] w0] eqn:HA;
    destruct (quiet_at _ _ _ _ (quiet_open filename) HA) as [eA [TA [SA CA]]];
    [|exact CA].
  apply open_target in HA. subst fd.
  destruct (RigolScope.getTimeAxis self w0) as [[time|e] w1] eqn:HB;
    destruct (quiet_at _ _ _ _ (quiet_getTimeAxis self) HB)
      as [eB [TB [SB CB]]];
    [|congruence].
  pose proof (getTimeAxis_length self w0 w1 time HB) as Hlen.
  unfold numpy.size. rewrite Hlen.
  destruct ((if requested 1 chan
             then RigolScope.getScaledWaveform self (PInt 1)
             else ret (numpy.zeros 600)) w1) as [[d1|e] w2] eqn:HC;
    destruct (quiet_at _ _ _ _
                (quiet_channel self 1 (requested 1 chan) (numpy.zeros 600)) HC)
      as [eC [TC [SC CC]]];
    [|congruence].
  destruct ((if requested 2 chan
             then RigolScope.getScaledWaveform self (PInt 2)
             else ret (numpy.zeros 600)) w2) as [[d2|e] w3] eqn:HD;
    destruct (quiet_at _ _ _ _
                (quiet_channel self 2 (requested 2 chan) (numpy.zeros 600)) HD)
      as [eD [TD [SD CD]]];
    [|congruence].
  pose proof (serializer_outcome self (target filename) d1 d2 time w3) as HE.
  destruct (RigolScope._writeChannelDataToFile self (target filename)
              d1 d2 time w3) as [[u|e] w4]; [|congruence].
  rewrite fclose_spec. subst w4.
  exists (eA ++ eB ++ eC ++ eD)%list, time, d1, d2, w0, w1.
  split; [rewrite !forallb_app, SA, SB, SC, SD; reflexivity|].
  split; [exact HB|]. split; [exact Hlen|].
  split; [exact (channel_zeros self 1 _ _ d1 w1 w2 HC)|].
  split; [exact (channel_zeros self 2 _ _ d2 w2 w3 HD)|].
  split.
  - simpl. rewrite TD, TC, TB, TA. rewrite <- !app_assoc. simpl.
    reflexivity.
  - simpl. unfold target. destruct (String.eqb filename ""); simpl;
      [reflexivity | congruence].
Qed.

Lemma stream_eqb_refl (f : stream) : stream_eqb f f = true.
Proof. destruct f; simpl; [reflexivity | apply String.eqb_refl]. Qed.

Lemma written_app (f : stream) (e1 e2 : list event) :
  written f (e1 ++ e2)%list = written f e1 ++ written f e2.
Proof.
  induction e1 as [|ev e1 IH]; simpl; [reflexivity|].
  destruct ev; try exact IH.
  destruct (stream_eqb f f0); [|exact IH].
  rewrite IH, append_assoc. reflexivity.
Qed.

Lemma written_silent (f : stream) (evs : list event) :
  forallb silent_event evs = true -> written f evs = "".
Proof.
  induction evs as [|ev evs IH]; simpl; [reflexivity|].
  intros H. apply andb_true_iff in H as [Hev Hevs].
  destruct ev; try discriminate; apply IH, Hevs.
Qed.

Lemma written_rows (fd : stream) (ft fa fb : nat -> float) (l : list nat) :
  written fd
    (map (fun j => FWrite fd (RigolScope.row (ft j) (fa j) (fb j))) l)
  = unlines (map (fun j => line (ft j) (fa j) (fb j)) l).
Proof.
  induction l as [|j l IH]; simpl; [reflexivity|].
  rewrite stream_eqb_refl, IH. apply row_line.
Qed.

Lemma written_table (fd : stream) (pre : list event)
    (time data1 data2 : list float) :
  forallb silent_event pre = true ->
  written fd
    (pre ++ FWrite fd RigolScope.header
         :: rows_written fd time data1 data2)%list
  = unlines (header_line
               :: map (fun j => line (at_ time j) (at_ data1 j) (at_ data2 j))
                    (seq 0 (List.length time))).
Proof.
  intros Hpre. rewrite written_app, (written_silent fd pre Hpre).
  simpl. rewrite stream_eqb_refl. unfold rows_written.
  rewrite (written_rows fd (at_ time) (at_ data1) (at_ data2)).
  reflexivity.
Qed.

Lemma table_unlines (ft fa fb : nat -> float) (l : list nat) :
  table (unlines (header_line
                    :: map (fun j => line (ft j) (fa j) (fb j)) l))
  = header_cells
      :: map (fun j => [Py.fmt_e 4 (ft j); Py.fmt_e 3 (fa j);
                        Py.fmt_e 3 (fb j)]) l.
Proof.
  unfold table. rewrite lines_unlines.
  - simpl. f_equal. rewrite map_map. apply map_ext. intros j.
    apply split_line.
  - constructor; [reflexivity|].
    apply Forall_map, Forall_forall. intros j _. apply line_free.
Qed.

Lemma cells_shape (time data1 data2 : list float) :
  List.length (cells time data1 data2) = List.length time /\
  Forall (fun r => List.length r = 3%nat) (cells time data1 data2).
Proof.
  unfold cells. rewrite length_map, length_seq. split; [reflexivity|].
  apply Forall_map, Forall_forall. intros j _. reflexivity.
Qed.

Lemma at_zeros (n j : nat) : (j < n)%nat -> at_ (numpy.zeros n) j = zero.
Proof. intros H. apply nth_repeat_lt, H. Qed.

Lemma cells_zero_1 (time data2 : list float) :
  Forall (fun r => nth 1 r "" = "0.000e+00")
    (cells time (numpy.zeros (List.length time)) data2).
Proof.
  apply Forall_map, Forall_forall. intros j Hj. apply in_seq in Hj.
  simpl. rewrite at_zeros by lia. reflexivity.
Qed.

Lemma cells_zero_2 (time data1 : list float) :
  Forall (fun r => nth 2 r "" = "0.000e+00")
    (cells time data1 (numpy.zeros (List.length time))).
Proof.
  apply Forall_map, Forall_forall. intros j Hj. apply in_seq in Hj.
  simpl. rewrite at_zeros by lia. reflexivity.
Qed.

(** C8. Whatever the channel selector, a call of [writeWaveformToFile]
    that returns has written a table of one header line and 600 data
    lines, one for each point of the time axis, of three cells each; the
    cell of a channel that was not requested is [0.000e+00] on every data
    line. *)
Theorem table_has_three_columns (self : Self) (filename : string)
    (chan : pyval) (w w' : World) :
  RigolScope.writeWaveformToFile self filename chan w = (Ok tt, w') ->
  exists evs time data1 data2 w0 w1,
    trace w' = (trace w ++ evs)%list /\
    RigolScope.getTimeAxis self w0 = (Ok time, w1) /\
    table (written (target filename) evs)
    = header_cells :: cells time data1 data2 /\
    List.length (cells time data1 data2) = 600%nat /\
    Forall (fun r => List.length r = 3%nat) (cells time data1 data2) /\
    (requested 1 chan = false ->
     Forall (fun r => nth 1 r "" = "0.000e+00") (cells time data1 data2)) /\
    (requested 2 chan = false ->
     Forall (fun r => nth 2 r "" = "0.000e+00") (cells time data1 data2)).
Proof.
  intros Hrun.
  pose proof (writeWaveformToFile_outcome self filename chan w) as H.
  rewrite Hrun in H.
  destruct H as (pre & time & d1 & d2 & w0 & w1 & Hpre & Haxis & Hlen
                 & Hz1 & Hz2 & Htrace & _).
  exists (pre ++ FWrite (target filename) RigolScope.header
            :: rows_written (target filename) time d1 d2
            ++ [FClose (target filename)])%list, time, d1, d2, w0, w1.
  split; [exact Htrace|]. split; [exact Haxis|].
  destruct (cells_shape time d1 d2) as [Hn H3].
  split; [|split; [congruence|split; [exact H3|split]]].
  - rewrite app_comm_cons, app_assoc, written_app.
    rewrite (written_table _ pre time d1 d2 Hpre). simpl written.
    rewrite append_nil_r.
    apply (table_unlines (at_ time) (at_ d1) (at_ d2)).
  - intros Hr. rewrite (Hz1 Hr), <- Hlen. apply cells_zero_1.
  - intros Hr. rewrite (Hz2 Hr), <- Hlen. apply cells_zero_2.
Qed.

Lemma table_has_three_columns_witness :
  fst (RigolScope.writeWaveformToFile scope0 "" (PInt 1) bench) = Ok tt /\
  requested 2 (PInt 1) = false /\
  exists rows,
    table (written Stdout
             (trace (snd (RigolScope.writeWaveformToFile scope0 ""
                            (PInt 1) bench))))
    = header_cells :: rows /\
    List.length rows = 600%nat /\
    Forall (fun r => List.length r = 3%nat) rows /\
    Forall (fun r => nth 2 r "" = "0.000e+00") rows.
Proof.
  assert (Hrun : RigolScope.writeWaveformToFile scope0 "" (PInt 1) bench
                 = (Ok tt, snd (RigolScope.writeWaveformToFile scope0 ""
                                  (PInt 1) bench)))
    by (vm_compute; reflexivity).
  split; [rewrite Hrun; reflexivity|]. split; [reflexivity|].
  destruct (table_has_three_columns scope0 "" (PInt 1) bench _ Hrun)
    as (evs & time & d1 & d2 & w0 & w1 & Htr & _ & Htab & Hn & H3 & _ & Hz2).
  change (trace bench ++ evs)%list with evs in Htr.
  exists (cells time d1 d2). rewrite Htr.
  repeat split; [exact Htab | exact Hn | exact H3 | exact (Hz2 eq_refl)].
Defined.

Example bench_first_lines :
  firstn 3 (table (written Stdout
              (trace (snd (RigolScope.writeWaveformToFile scope0 ""
                             (PInt 1) bench)))))
  = [["# Time     "; "Channel 1"; "Channel 2"];
     ["-6.0000e+00"; "-2.000e+01"; "0.000e+00"];
     ["-5.9800e+00"; "-2.000e+01"; "0.000e+00"]].
Proof. vm_compute. reflexivity. Qed.



(** ** Closing the output stream *)

Lemma no_close_silent (evs : list event) :
  forallb silent_event evs = true -> existsb is_FClose evs = false.
Proof.
  induction evs as [|ev evs IH]; simpl; [reflexivity|].
  intros H. apply andb_true_iff in H as [Hev Hevs].
  rewrite (IH Hevs). destruct ev; try discriminate; reflexivity.
Qed.

Lemma no_close_rows (fd : stream) (time data1 data2 : list float) :
  existsb is_FClose (rows_written fd time data1 data2) = false.
Proof.
  unfold rows_written. induction (seq 0 (List.length time)) as [|j l IH];
    simpl; [reflexivity | exact IH].
Qed.

(** C10. A call of [writeWaveformToFile] that returns has closed the
    stream it wrote the table to, after the table and as the last thing
    it did.  For the blank file name that stream is [sys.stdout], which
    is closed from then on, by the same [close] that a named file gets. *)
Theorem output_stream_is_closed (self : Self) (filename : string)
    (chan : pyval) (w w' : World) :
  RigolScope.writeWaveformToFile self filename chan w = (Ok tt, w') ->
  exists evs rows,
    trace w' = (trace w ++ evs ++ [FClose (target filename)])%list /\
    existsb is_FClose evs = false /\
    table (written (target filename) evs) = header_cells :: rows /\
    List.length rows = 600%nat /\
    if String.eqb filename ""
    then target filename = Stdout /\ stdout_closed w' = true
    else target filename = File filename /\
         stdout_closed w' = stdout_closed w.
Proof.
  intros Hrun.
  pose proof (writeWaveformToFile_outcome self filename chan w) as H.
  rewrite Hrun in H.
  destruct H as (pre & time & d1 & d2 & w0 & w1 & Hpre & Haxis & Hlen
                 & Hz1 & Hz2 & Htrace & Hclosed).
  exists (pre ++ FWrite (target filename) RigolScope.header
            :: rows_written (target filename) time d1 d2)%list,
         (cells time d1 d2).
  split; [rewrite Htrace, <- !app_assoc; reflexivity|].
  split.
  { rewrite existsb_app, (no_close_silent pre Hpre). simpl.
    apply no_close_rows. }
  split.
  { rewrite (written_table _ pre time d1 d2 Hpre).
    apply (table_unlines (at_ time) (at_ d1) (at_ d2)). }
  split; [destruct (cells_shape time d1 d2); congruence|].
  rewrite Hclosed. unfold target.
  destruct (String.eqb filename ""); split; reflexivity.
Qed.

Lemma output_stream_is_closed_witness :
  stdout_closed (timebase "0.000e+00") = false /\
  fst (RigolScope.writeWaveformToFile scope0 "" (PInt 0)
         (timebase "0.000e+00")) = Ok tt /\
  stdout_closed
    (snd (RigolScope.writeWaveformToFile scope0 "" (PInt 0)
            (timebase "0.000e+00"))) = true /\
  last (trace (snd (RigolScope.writeWaveformToFile scope0 "" (PInt 0)
                      (timebase "0.000e+00")))) (FOpen "")
  = FClose Stdout.
Proof.
  assert (Hrun : RigolScope.writeWaveformToFile scope0 "" (PInt 0)
                   (timebase "0.000e+00")
                 = (Ok tt, snd (RigolScope.writeWaveformToFile scope0 ""
                                  (PInt 0) (timebase "0.000e+00"))))
    by (vm_compute; reflexivity).
  split; [reflexivity|]. split; [rewrite Hrun; reflexivity|].
  destruct (output_stream_is_closed scope0 "" (PInt 0)
              (timebase "0.000e+00") _ Hrun)
    as (evs & rows & Htr & _ & _ & _ & _ & Hclosed).
  split; [exact Hclosed|].
  rewrite Htr, app_assoc. apply last_last.
Defined.

(** A call that raises has closed nothing. *)
Lemma raise_keeps_stdout (self : Self) (filename : string) (chan : pyval)
    (w w' : World) (e : exn) :
  RigolScope.writeWaveformToFile self filename chan w = (Raise e, w') ->
  stdout_closed w' = stdout_closed w.
Proof.
  intros Hrun.
  pose proof (writeWaveformToFile_outcome self filename chan w) as H.
  rewrite Hrun in H. exact H.
Qed.

(** After the table has gone to [sys.stdout], nothing more can be
    printed: the stream is closed. *)
Example print_after_table :
  fst ((RigolScope.writeWaveformToFile scope0 "" (PInt 0) ;;
        print "done") (timebase "0.000e+00"))
  = Raise ValueError.
Proof. vm_compute. reflexivity. Qed.


(** ** The module test code *)

Example main_run :
  let w := main (mkWorld
             (script [Done 3 ""; Done 5 ""; Done 0 "Rigol Technologies,DS1052E";
                      Done 10 ""; Done 0 "1.000e-03";
                      Done 10 ""; Done 0 "0.000e+00";
                      Done 16 ""; Done 0 (preamble ++ wave 600 "130");
                      Done 12 ""; Done 0 "5.000e-01";
                      Done 12 ""; Done 0 "0.000e+00";
                      Done 16 ""; Done 0 (preamble ++ wave 600 "100");
                      Done 12 ""; Done 0 "1.000e+00";
                      Done 12 ""; Done 0 "0.000e+00";
                      Done 9 ""; Done 0 ""]) 0 [] false) in
  fst w = Ok tt /\
  filter silent_event (trace (snd w)) =
  [OsOpen "/dev/usbtmc0"; OsWrite 3 "*IDN?"; OsRead 3 300;
   OsWrite 3 ":TIM:SCAL?"; OsRead 3 20; OsWrite 3 ":TIM:OFFS?"; OsRead 3 20;
   OsWrite 3 ":WAV:DATA? CHAN1"; OsRead 3 9000;
   OsWrite 3 ":CHAN1:SCAL?"; OsRead 3 20;
   OsWrite 3 ":CHAN1:OFFS?"; OsRead 3 20;
   OsWrite 3 ":WAV:DATA? CHAN2"; OsRead 3 9000;
   OsWrite 3 ":CHAN2:SCAL?"; OsRead 3 20;
   OsWrite 3 ":CHAN2:OFFS?"; OsRead 3 20;
   OsWrite 3 ":KEY:FORC"; OsClose 3] /\
  firstn 4 (table (written Stdout (trace (snd w)))) =
  [["# RigolScope Test #"];
   ["# Connected to: Rigol Technologies,DS1052E"];
   ["# Time     "; "Channel 1"; "Channel 2"];
   ["-6.0000e-03"; "-1.000e-01"; "1.000e+00"]].
Proof. vm_compute. repeat split. Qed.

(** ** What a computation may add to the trace *)

Section Emits.

Variable P : event -> bool.
Hypothesis P_LogErr : forall msg e, P (LogErr msg e) = true.
Hypothesis P_OsRead : forall fd n, P (OsRead fd n) = true.
Hypothesis P_FWrite : forall f text, P (FWrite f text) = true.

Lemma emits_ret {A : Type} (a : A) : emits P (ret a).
Proof. intros w. exists []. simpl. rewrite app_nil_r. split; reflexivity. Qed.

Lemma emits_raise {A : Type} (e : exn) : emits P (@raise A e).
Proof. intros w. exists []. simpl. rewrite app_nil_r. split; reflexivity. Qed.

Lemma emits_lift {A : Type} (e : exn) (o : option A) : emits P (lift e o).
Proof. destruct o; [apply emits_ret | apply emits_raise]. Qed.

Lemma emits_bind {A B : Type} (m : M A) (f : A -> M B) :
  emits P m -> (forall a, emits P (f a)) -> emits P (bind m f).
Proof.
  intros Hm Hf w. unfold bind.
  destruct (Hm w) as [e1 [T1 S1]].
  destruct (m w) as [[a|e] w1]; simpl in *.
  - destruct (Hf a w1) as [e2 [T2 S2]].
    exists (e1 ++ e2)%list. rewrite T2, T1, app_assoc, forallb_app, S1, S2.
    split; reflexivity.
  - exists e1. split; assumption.
Qed.

Lemma emits_try {A : Type} (m : M A) (h : Z -> M A) :
  emits P m -> (forall n, emits P (h n)) -> emits P (try_OSError m h).
Proof.
  intros Hm Hh w. unfold try_OSError.
  destruct (Hm w) as [e1 [T1 S1]].
  destruct (m w) as [[a|[n| | | | |]] w1]; simpl in *;
    try (exists e1; split; assumption).
  destruct (Hh n w1) as [e2 [T2 S2]].
  exists (e1 ++ e2)%list. rewrite T2, T1, app_assoc, forallb_app, S1, S2.
  split; reflexivity.
Qed.

Lemma emits_one {A : Type} (m : M A) (ev : event) :
  P ev = true ->
  (forall w, trace (snd (m w)) = trace w
             \/ trace (snd (m w)) = (trace w ++ [ev])%list) ->
  emits P m.
Proof.
  intros Hev Hm w. destruct (Hm w) as [H|H]; rewrite H.
  - exists []. rewrite app_nil_r. split; reflexivity.
  - exists [ev]. simpl. rewrite Hev. split; reflexivity.
Qed.

Lemma emits_syscall (ev : event) : P ev = true -> emits P (syscall ev).
Proof. intros H. apply (emits_one _ ev H). intros w. right. reflexivity. Qed.

Lemma emits_print_stderr (msg : string) (e : option exn) :
  emits P (print_stderr msg e).
Proof.
  apply (emits_one _ (LogErr msg e) (P_LogErr msg e)).
  intros w. right. reflexivity.
Qed.

Lemma emits_fwrite (f : stream) (text : string) : emits P (fwrite f text).
Proof.
  apply (emits_one _ (FWrite f text) (P_FWrite f text)).
  intros w. destruct f; simpl; [destruct (stdout_closed w)|]; simpl; auto.
Qed.

Lemma emits_fclose (f : stream) : P (FClose f) = true -> emits P (fclose f).
Proof.
  intros H. apply (emits_one _ (FClose f) H).
  intros w. right. destruct f; reflexivity.
Qed.

Lemma emits_fopen (name : string) :
  P (FOpen name) = true -> emits P (fopen name).
Proof.
  intros H. apply emits_bind; [apply emits_syscall, H|].
  intros [k d|e]; [apply emits_ret | apply emits_raise].
Qed.

Lemma emits_for_range (body : nat -> M unit) (n i : nat) :
  (forall j, emits P (body j)) -> emits P (for_range i n body).
Proof.
  intros Hb. revert i. induction n as [|n IH]; intros i; simpl.
  - apply emits_ret.
  - apply emits_bind; [apply Hb | intros _; apply IH].
Qed.

Lemma emits_write (self : Self) (cmd : string) :
  P (OsWrite (FILE self) cmd) = true -> emits P (usbtmc.write self cmd).
Proof.
  intros H. apply emits_try; [|intros n; apply emits_print_stderr].
  apply emits_bind; [apply emits_syscall, H|].
  intros [k d|e]; [apply emits_ret | apply emits_raise].
Qed.

Lemma emits_read (self : Self) (n : Z) : emits P (usbtmc.read self n).
Proof.
  apply emits_try.
  - unfold os.read. destruct (negb (fits_int n)); [apply emits_raise|].
    destruct (n <? 0); [apply emits_raise|].
    apply emits_bind; [apply emits_syscall, P_OsRead|].
    intros [k d|e]; [apply emits_ret | apply emits_raise].
  - intros e. apply emits_bind; [|intros _; apply emits_ret].
    destruct (e =? ETIMEDOUT); apply emits_print_stderr.
Qed.

Lemma emits_query (self : Self) (cmd : string) (n : Z) :
  P (OsWrite (FILE self) cmd) = true -> emits P (usbtmc.query self cmd n).
Proof.
  intros H. apply emits_bind; [apply emits_write, H|].
  intros _. apply emits_read.
Qed.

Lemma emits_ask (q : numeric_query) (self : Self) :
  P (OsWrite (FILE self) (command q)) = true -> emits P (ask q self).
Proof.
  intros H. destruct q; simpl;
    (apply emits_bind; [apply emits_query, H | intros; apply emits_lift]).
Qed.

Lemma emits_readData (self : Self) (chan : pyval) :
  P (OsWrite (FILE self) (":WAV:DATA? CHAN" ++ str chan)) = true ->
  emits P (RigolScope.readData self chan).
Proof.
  intros H. apply emits_bind; [|intros; apply emits_lift].
  apply (emits_query self _ 9000 H).
Qed.

Lemma emits_getScaledWaveform (self : Self) (chan : pyval) :
  P (OsWrite (FILE self) (":WAV:DATA? CHAN" ++ str chan)) = true ->
  P (OsWrite (FILE self) (command (VoltScale chan))) = true ->
  P (OsWrite (FILE self) (command (VoltOffset chan))) = true ->
  emits P (RigolScope.getScaledWaveform self chan).
Proof.
  intros Hd Hs Ho.
  apply emits_bind; [apply emits_readData, Hd | intros data].
  apply emits_bind; [apply (emits_ask (VoltScale chan)), Hs | intros vs].
  apply emits_bind; [apply (emits_ask (VoltOffset chan)), Ho | intros vo].
  apply emits_bind; [apply emits_lift | intros; apply emits_ret].
Qed.

Lemma emits_getTimeAxis (self : Self) :
  P (OsWrite (FILE self) ":TIM:SCAL?") = true ->
  P (OsWrite (FILE self) ":TIM:OFFS?") = true ->
  emits P (RigolScope.getTimeAxis self).
Proof.
  intros Hs Ho.
  apply emits_bind; [apply (emits_ask TimeScale), Hs | intros ts].
  apply emits_bind; [apply (emits_ask TimeOffset), Ho | intros t0].
  apply emits_ret.
Qed.

Lemma emits_serializer (self : Self) (fd : stream)
    (data1 data2 time : list float) :
  emits P (RigolScope._writeChannelDataToFile self fd data1 data2 time).
Proof.
  apply emits_bind; [apply emits_fwrite | intros _].
  apply emits_for_range. intros j.
  apply emits_bind; [apply emits_lift | intros t].
  apply emits_bind; [apply emits_lift | intros a].
  apply emits_bind; [apply emits_lift | intros b].
  apply emits_fwrite.
Qed.

(** Everything [writeWaveformToFile] does before it closes its stream. *)
Lemma emits_acquire (self : Self) (filename : string) (chan : pyval) :
  (forall cmd, In cmd query_commands -> P (OsWrite (FILE self) cmd) = true) ->
  P (FOpen filename) = true ->
  (forall fd, P (FClose fd) = true) ->
  emits P (RigolScope.writeWaveformToFile self filename chan).
Proof.
  intros Hq Hopen Hclose.
  assert (Hc : forall k, k = 1 \/ k = 2 ->
            forall (req : bool) z,
              emits P (if req then RigolScope.getScaledWaveform self (PInt k)
                       else ret z)).
  { intros k Hk req z. destruct req; [|apply emits_ret].
    destruct Hk as [-> | ->]; apply emits_getScaledWaveform; apply Hq;
      cbv; auto 10. }
  unfold RigolScope.writeWaveformToFile.
  apply emits_bind.
  { destruct (String.eqb filename "");
      [apply emits_ret | apply emits_fopen, Hopen]. }
  intros fd. apply emits_bind.
  { apply emits_getTimeAxis; apply Hq; cbv; auto 10. }
  intros time. cbv zeta.
  apply emits_bind; [apply Hc; auto | intros d1].
  apply emits_bind; [apply Hc; auto | intros d2].
  apply emits_bind; [apply emits_serializer | intros _].
  apply emits_fclose, Hclose.
Qed.

End Emits.

Lemma emits_at {A : Type} (P : event -> bool) (m : M A) (w w' : World)
    (r : result A) :
  emits P m -> m w = (r, w') ->
  exists evs, trace w' = (trace w ++ evs)%list /\ forallb P evs = true.
Proof. intros H E. specialize (H w). rewrite E in H. exact H. Qed.

(** ** The transport as its callers see it *)

(** X1. [usbtmc.write] never raises: it makes one [os.write] of the
    command, and a failure of that write is only reported on
    [sys.stderr]; the caller goes on as if the command had been sent. *)
Theorem write_swallows_failure (self : Self) (command : string) (w : World) :
  usbtmc.write self command w =
  (Ok tt,
   mkWorld (answers w) (S (calls w))
     (trace w ++ OsWrite (FILE self) command
        :: match answers w (calls w) with
           | Done _ _ => []
           | Failed e => [LogErr "Write Error: " (Some (OSError e))]
           end)%list
     (stdout_closed w)).
Proof.
  rewrite write_spec. simpl.
  destruct (answers w (calls w)); unfold log, tick; simpl;
    rewrite <- ?app_assoc; reflexivity.
Qed.

Lemma query_outcome (self : Self) (cmd : string) (n : Z) (w : World) :
  0 <= n <= INT_MAX ->
  usbtmc.query self cmd n w =
  (Ok (match answers w (S (calls w)) with
       | Done _ data => substring 0 (Z.to_nat n) data
       | Failed _ => ""
       end),
   mkWorld (answers w) (S (S (calls w)))
     (trace w
        ++ OsWrite (FILE self) cmd
        :: match answers w (calls w) with
           | Done _ _ => []
           | Failed e => [LogErr "Write Error: " (Some (OSError e))]
           end
        ++ OsRead (FILE self) n
        :: match answers w (S (calls w)) with
           | Done _ _ => []
           | Failed e =>
               [if e =? ETIMEDOUT
                then LogErr "Read Error: Read timeout" None
                else LogErr "Read Error: " (Some (OSError e))]
           end)%list
     (stdout_closed w)).
Proof.
  intros Hn. rewrite query_spec, write_spec.
  rewrite read_spec by (apply fits_int_spec; unfold INT_MIN; lia).
  destruct (Z.ltb_spec n 0); [lia|].
  destruct (answers w (calls w)); simpl;
    destruct (answers w (S (calls w))); unfold log, tick; simpl;
    rewrite <- ?app_assoc; simpl; reflexivity.
Qed.

(** X2. For a [length] from 0 up to the largest C [int], [usbtmc.query]
    never raises and always makes the write and then the read, also when
    the write failed: the response is what the read finds, cut to
    [length] bytes, or the empty string when the read fails. *)
Theorem query_reads_whatever_the_write_did (self : Self) (command : string)
    (length : Z) (w : World) :
  0 <= length <= INT_MAX ->
  exists response errs logs,
    usbtmc.query self command length w =
    (Ok response,
     mkWorld (answers w) (S (S (calls w)))
       (trace w ++ OsWrite (FILE self) command :: errs
          ++ OsRead (FILE self) length :: logs)%list
       (stdout_closed w)) /\
    forallb is_LogErr errs = true /\
    forallb is_LogErr logs = true /\
    Z.of_nat (String.length response) <= length /\
    response = match answers w (S (calls w)) with
               | Done _ data => substring 0 (Z.to_nat length) data
               | Failed _ => ""
               end.
Proof.
  intros Hn. rewrite (query_outcome self command length w Hn).
  do 3 eexists. split; [reflexivity|].
  split; [destruct (answers w (calls w)); reflexivity|].
  split.
  { destruct (answers w (S (calls w))) as [k d|e]; [reflexivity|].
    destruct (e =? ETIMEDOUT); reflexivity. }
  split; [|reflexivity].
  destruct (answers w (S (calls w))) as [k d|e]; simpl; [|lia].
  pose proof (substring_length_le (Z.to_nat length) d). lia.
Qed.

Lemma query_reads_whatever_the_write_did_witness :
  0 <= 300 <= INT_MAX /\
  exists response,
    fst (usbtmc.query scope0 "*IDN?" 300
           (mkWorld (script [Failed 5; Done 0 "Rigol"]) 0 [] false))
    = Ok response /\
    response = "Rigol".
Proof.
  split; [unfold INT_MAX; lia|].
  destruct (query_reads_whatever_the_write_did scope0 "*IDN?" 300
              (mkWorld (script [Failed 5; Done 0 "Rigol"]) 0 [] false)
              ltac:(unfold INT_MAX; lia))
    as (r & errs & logs & Hrun & _ & _ & _ & Hr).
  exists r. rewrite Hrun. split; [reflexivity | exact Hr].
Defined.

(** X3. A numeric query parses the first 20 bytes of what the instrument
    sends and nothing beyond them; a failed read, having no byte, raises
    [ValueError]. *)
Theorem numeric_query_reads_20_bytes (q : numeric_query) (self : Self)
    (w : World) :
  fst (ask q self w) =
  match answers w (S (calls w)) with
  | Done _ data =>
      match Py.float_of_str (substring 0 20 data) with
      | Some x => Ok x
      | None => Raise ValueError
      end
  | Failed _ => Raise ValueError
  end.
Proof.
  rewrite ask_spec. unfold response.
  rewrite (query_outcome self (command q) 20 w ltac:(unfold INT_MAX; lia)). simpl.
  destruct (answers w (S (calls w))); reflexivity.
Qed.

(** A longer numeral is cut before it is read: ten becomes one. *)
Example long_numeral_is_cut :
  fst (RigolScope.getTimeScale scope0
         (mkWorld (script [Done 10 ""; Done 0 "1.00000000000000000000e+01"])
            0 [] false))
  = Ok 1%float.
Proof. reflexivity. Qed.

(** ** Opening and closing a session *)

Lemma close_outcome (self : Self) (w : World) :
  RigolScope.close self w =
  (match answers w (S (calls w)) with
   | Done _ _ => Ok tt
   | Failed e => Raise (OSError e)
   end,
   mkWorld (answers w) (S (S (calls w)))
     (trace w
        ++ OsWrite (FILE self) ":KEY:FORC"
        :: match answers w (calls w) with
           | Done _ _ => []
           | Failed e => [LogErr "Write Error: " (Some (OSError e))]
           end
        ++ [OsClose (FILE self)])%list
     (stdout_closed w)).
Proof.
  unfold RigolScope.close, RigolScope.unlock, RigolScope.forceTrigger, bind.
  rewrite write_spec. simpl.
  unfold usbtmc.close, os.close, bind, syscall.
  destruct (answers w (calls w)); simpl;
    destruct (answers w (S (calls w))); unfold log, tick; simpl;
    rewrite <- ?app_assoc; reflexivity.
Qed.

(** X4. [RigolScope.close] raises exactly when the release of the
    descriptor fails, with the error of [os.close]; whether the unlock
    command could be written has no part in it. *)
Theorem close_raises_only_for_the_release (self : Self) (w : World) :
  fst (RigolScope.close self w) =
  match answers w (S (calls w)) with
  | Done _ _ => Ok tt
  | Failed e => Raise (OSError e)
  end.
Proof. rewrite close_outcome. reflexivity. Qed.

Lemma usbtmc_init_spec (device : string) (w : World) :
  usbtmc.__init__ device w =
  let w1 := tick (log (OsOpen device) w) in
  match answers w (calls w) with
  | Done fd _ => (Ok (mkSelf device fd ""), w1)
  | Failed e =>
      (Raise (OSError e),
       log (LogErr "Error opening device: " (Some (OSError e))) w1)
  end.
Proof.
  unfold usbtmc.__init__, try_OSError, os.open, bind, syscall. simpl.
  destruct (answers w (calls w)); reflexivity.
Qed.

(** X5. [RigolScope.__init__].  When the device cannot be opened, the
    error is reported and raised again and nothing is sent to the
    device.  Otherwise the session holds the descriptor that [os.open]
    returned, asks [*IDN?] once, keeps at most 300 bytes of the answer as
    its name and prints it; on a closed [sys.stdout] that print raises
    [ValueError] and the opened descriptor is not released. *)
Theorem init_outcome (device : string) (w : World) :
  let w1 := tick (log (OsOpen device) w) in
  match answers w (calls w) with
  | Failed e =>
      RigolScope.__init__ device w =
      (Raise (OSError e),
       log (LogErr "Error opening device: " (Some (OSError e))) w1)
  | Done fd _ =>
      exists name w2,
        usbtmc.query (mkSelf device fd "") "*IDN?" 300 w1 = (Ok name, w2) /\
        Z.of_nat (String.length name) <= 300 /\
        RigolScope.__init__ device w =
        if stdout_closed w then (Raise ValueError, w2)
        else (Ok (mkSelf device fd name),
              log (FWrite Stdout ("# Connected to: " ++ name ++ newline)) w2)
  end.
Proof.
  cbv zeta. unfold RigolScope.__init__, usbtmc.getName, bind.
  rewrite usbtmc_init_spec. cbv zeta.
  destruct (answers w (calls w)) as [fd d|e]; [|reflexivity].
  rewrite (query_outcome (mkSelf device fd "") "*IDN?" 300
             (tick (log (OsOpen device) w)) ltac:(unfold INT_MAX; lia)).
  do 2 eexists. split; [reflexivity|]. split.
  { change (answers (tick (log (OsOpen device) w))) with (answers w).
    change (calls (tick (log (OsOpen device) w))) with (S (calls w)).
    destruct (answers w (S (S (calls w)))) as [k d'|e];
      [|cbn [String.length]; lia].
    pose proof (substring_length_le (Z.to_nat 300) d'). lia. }
  unfold print, fwrite, newline. cbn [stdout_closed tick log].
  rewrite append_assoc.
  destruct (stdout_closed w); reflexivity.
Qed.

(** ** More on decoding and scaling *)

Lemma readRawData_length (self : Self) (chan : pyval) (w w1 : World)
    (raw : string) :
  RigolScope.readRawData self chan w = (Ok raw, w1) ->
  Z.of_nat (String.length raw) <= 9000.
Proof.
  unfold RigolScope.readRawData.
  change (usbtmc.write self (":WAV:DATA? CHAN" ++ str chan);;
          usbtmc.read self 9000)
    with (usbtmc.query self (":WAV:DATA? CHAN" ++ str chan) 9000).
  rewrite (query_outcome self _ 9000 w ltac:(unfold INT_MAX; lia)).
  intros H. apply (f_equal fst) in H. cbn [fst] in H.
  injection H as <-.
  destruct (answers w (S (calls w))) as [k d|e]; [|cbn [String.length]; lia].
  pose proof (substring_length_le (Z.to_nat 9000) d) as Hd.
  change (Pos.to_nat 9000) with (Z.to_nat 9000). lia.
Qed.

(** X6. [readData] returns at most 8990 samples, whatever the instrument
    sends: the read takes 9000 bytes at most and ten of them are the
    preamble. *)
Theorem readData_at_most_8990 (self : Self) (chan : pyval) (w w1 : World)
    (data : list Z) :
  RigolScope.readData self chan w = (Ok data, w1) ->
  Z.of_nat (List.length data) <= 8990.
Proof.
  intros H.
  destruct (RigolScope.readRawData self chan w) as [[raw|e] w0] eqn:Hraw.
  - pose proof (readRawData_length self chan w w0 raw Hraw) as Hlen.
    rewrite (readData_spec self chan w w0 raw Hraw), frombuffer_preamble in H.
    destruct (String.length raw <? 10)%nat; [discriminate|].
    assert (Hd : data = map numpy.byte_val
                          (skipn 10 (list_ascii_of_string raw)))
      by congruence.
    rewrite Hd, length_map, length_skipn, length_list_ascii. lia.
  - destruct (readRawData_never_raises self chan w) as [raw Hr].
    rewrite Hraw in Hr. discriminate.
Qed.

Lemma readData_at_most_8990_witness :
  exists data,
    fst (RigolScope.readData scope0 (PInt 1)
           (mkWorld (script [Done 16 ""; Done 0 (wave (Z.to_nat 9100) "A")])
              0 [] false))
    = Ok data /\
    Z.of_nat (List.length data) = 8990.
Proof.
  eexists. split; [vm_compute; reflexivity|].
  apply Z.le_antisymm.
  - apply (readData_at_most_8990 scope0 (PInt 1)
             (mkWorld (script [Done 16 ""; Done 0 (wave (Z.to_nat 9100) "A")])
                0 [] false)
             (snd (RigolScope.readData scope0 (PInt 1)
                     (mkWorld
                        (script [Done 16 "";
                                 Done 0 (wave (Z.to_nat 9100) "A")])
                        0 [] false)))).
    vm_compute. reflexivity.
  - vm_compute. discriminate.
Defined.

Lemma list_ascii_app (a b : string) :
  list_ascii_of_string (a ++ b)
  = (list_ascii_of_string a ++ list_ascii_of_string b)%list.
Proof. induction a as [|c a IH]; simpl; [reflexivity | now rewrite IH]. Qed.

Lemma length_append (a b : string) :
  String.length (a ++ b) = (String.length a + String.length b)%nat.
Proof. induction a as [|c a IH]; simpl; [reflexivity | now rewrite IH]. Qed.

Lemma skipn_length_app {A : Type} (l l' : list A) :
  skipn (List.length l) (l ++ l') = l'.
Proof. induction l as [|a l IH]; simpl; [reflexivity | exact IH]. Qed.

(** X7. Only the length of the preamble matters: whatever its ten bytes
    are, [readData] returns exactly the bytes that follow them. *)
Theorem readData_ignores_preamble_content (self : Self) (chan : pyval)
    (w w1 : World) (header payload : string) :
  RigolScope.readRawData self chan w = (Ok (header ++ payload), w1) ->
  String.length header = 10%nat ->
  RigolScope.readData self chan w =
  (Ok (map numpy.byte_val (list_ascii_of_string payload)), w1).
Proof.
  intros Hraw Hlen.
  rewrite (readData_spec self chan w w1 _ Hraw), frombuffer_preamble.
  rewrite length_append, Hlen.
  destruct (Nat.ltb_spec (10 + String.length payload) 10); [lia|].
  rewrite list_ascii_app, <- Hlen, <- length_list_ascii, skipn_length_app.
  reflexivity.
Qed.

Lemma readData_ignores_preamble_content_witness :
  String.length "0123456789" = 10%nat /\
  fst (RigolScope.readData scope0 (PInt 2)
         (mkWorld (script [Done 16 ""; Done 0 ("0123456789" ++ "AB")])
            0 [] false))
  = Ok [65; 66].
Proof.
  split; [reflexivity|].
  rewrite (readData_ignores_preamble_content scope0 (PInt 2)
             (mkWorld (script [Done 16 ""; Done 0 ("0123456789" ++ "AB")])
                0 [] false)
             (snd (RigolScope.readRawData scope0 (PInt 2)
                     (mkWorld
                        (script [Done 16 ""; Done 0 ("0123456789" ++ "AB")])
                        0 [] false)))
             "0123456789" "AB" eq_refl eq_refl).
  reflexivity.
Defined.

(** X8. A waveform read of fewer than ten bytes, as after a time-out,
    stops [getScaledWaveform] with [ValueError] right there: the scale
    and the offset of the channel are not asked for. *)
Theorem short_waveform_stops_scaling (self : Self) (chan : pyval)
    (w w1 : World) (raw : string) :
  RigolScope.readRawData self chan w = (Ok raw, w1) ->
  (String.length raw < 10)%nat ->
  RigolScope.getScaledWaveform self chan w = (Raise ValueError, w1).
Proof.
  intros Hraw Hlen. unfold RigolScope.getScaledWaveform, bind.
  rewrite (readData_spec self chan w w1 raw Hraw), frombuffer_preamble.
  destruct (Nat.ltb_spec (String.length raw) 10); [reflexivity | lia].
Qed.

Lemma short_waveform_stops_scaling_witness :
  RigolScope.getScaledWaveform scope0 (PInt 1) mute
  = (Raise ValueError,
     mkWorld (answers mute) 2
       [OsWrite 3 ":WAV:DATA? CHAN1"; OsRead 3 9000;
        LogErr "Read Error: Read timeout" None] false).
Proof.
  apply (short_waveform_stops_scaling scope0 (PInt 1) mute _ "").
  - reflexivity.
  - simpl. lia.
Defined.

(** X9. [getScaledWaveform] returns one voltage for each sample that
    [readData] decoded, in the same order of indices. *)
Theorem scaled_waveform_keeps_length (self : Self) (chan : pyval)
    (w w' : World) (volts : list float) :
  RigolScope.getScaledWaveform self chan w = (Ok volts, w') ->
  exists data w1,
    RigolScope.readData self chan w = (Ok data, w1) /\
    List.length volts = List.length data.
Proof.
  unfold RigolScope.getScaledWaveform, bind.
  destruct (RigolScope.readData self chan w) as [[data|e] w1];
    [|discriminate].
  destruct (RigolScope.getVoltScale self chan w1) as [[vs|e] w2];
    [|discriminate].
  destruct (RigolScope.getVoltOffset self chan w2) as [[vo|e] w3];
    [|discriminate].
  destruct (Py.truediv vo vs) as [q|]; simpl; [|discriminate].
  intros H. exists data, w1. split; [reflexivity|].
  assert (Hv : volts =
    numpy.mul_f
      (numpy.div_f
         (numpy.sub_f (numpy.sub_u8_f (numpy.rsub_u8 255 data) 130) (q * 25))
         25) vs) by (unfold ret in H; congruence).
  rewrite Hv.
  unfold numpy.mul_f, numpy.div_f, numpy.sub_f, numpy.sub_u8_f,
    numpy.rsub_u8.
  rewrite !length_map. reflexivity.
Qed.

Lemma scaled_waveform_keeps_length_witness :
  exists volts data,
    fst (RigolScope.getScaledWaveform scope0 (PInt 1) one_sample) = Ok volts /\
    fst (RigolScope.readData scope0 (PInt 1) one_sample) = Ok data /\
    List.length volts = List.length data.
Proof.
  assert (Hrun : RigolScope.getScaledWaveform scope0 (PInt 1) one_sample
                 = (Ok [(-20)%float],
                    snd (RigolScope.getScaledWaveform scope0 (PInt 1)
                           one_sample)))
    by reflexivity.
  destruct (scaled_waveform_keeps_length scope0 (PInt 1) one_sample _ _ Hrun)
    as (data & w1 & Hdata & Hlen).
  exists [(-20)%float], data. rewrite Hrun, Hdata.
  split; [reflexivity|]. split; [reflexivity | exact Hlen].
Defined.

(** ** More on the time axis *)

Lemma set_last_nth (y : list float) (v d : float) :
  y <> [] -> nth (List.length y - 1) (numpy.set_last y v) d = v.
Proof.
  destruct y as [|a l]; [congruence|]. intros _.
  unfold numpy.set_last.
  replace (List.length (a :: l) - 1)%nat
    with (List.length (removelast (a :: l)))
    by (rewrite length_removelast_cons; simpl; lia).
  apply nth_middle.
Qed.

Lemma linspace_last (start stop d : float) (num : nat) :
  (1 < num)%nat -> nth (num - 1) (numpy.linspace start stop num) d = stop.
Proof.
  intros Hn. unfold numpy.linspace.
  destruct (Nat.ltb_spec 1 num); [|lia].
  match goal with
  | |- nth _ (numpy.set_last ?y _) _ = _ =>
      assert (Hy : List.length y = num)
        by (destruct (PrimFloat.eqb _ zero);
            rewrite !length_map, length_seq; reflexivity);
      rewrite <- Hy at 1; apply set_last_nth;
      intros E; rewrite E in Hy; simpl in Hy; lia
  end.
Qed.

(** X10. Whatever the time scale is, the axis that [getTimeAxis] returns
    has 600 points and its last point is exactly [300/50 * timescale]. *)
Theorem time_axis_ends_at_timespan (self : Self) (w w' : World)
    (time : list float) :
  RigolScope.getTimeAxis self w = (Ok time, w') ->
  exists timescale w1,
    RigolScope.getTimeScale self w = (Ok timescale, w1) /\
    List.length time = 600%nat /\
    at_ time 599 = (300 / 50 * timescale)%float.
Proof.
  intros H. pose proof (getTimeAxis_length self w w' time H) as Hlen.
  revert H. unfold RigolScope.getTimeAxis, bind.
  destruct (RigolScope.getTimeScale self w) as [[ts|e] w1]; [|discriminate].
  destruct (RigolScope.getTimeOffset self w1) as [[t0|e] w2]; [|discriminate].
  unfold ret. intros H. exists ts, w1.
  split; [reflexivity|]. split; [exact Hlen|].
  assert (Ht : time = numpy.linspace (- (300 / 50 * ts)) (300 / 50 * ts) 600)
    by congruence.
  rewrite Ht. unfold at_.
  apply (linspace_last (- (300 / 50 * ts)) (300 / 50 * ts) nan 600). lia.
Qed.

Lemma time_axis_ends_at_timespan_witness :
  exists time,
    fst (RigolScope.getTimeAxis scope0
           (mkWorld (script [Done 10 ""; Done 0 "2.000e-03";
                             Done 10 ""; Done 0 "0"]) 0 [] false))
    = Ok time /\
    List.length time = 600%nat /\
    at_ time 599 = (300 / 50 * 0x1.0624dd2f1a9fcp-9)%float.
Proof.
  destruct (RigolScope.getTimeAxis scope0
              (mkWorld (script [Done 10 ""; Done 0 "2.000e-03";
                                Done 10 ""; Done 0 "0"]) 0 [] false))
    as [[time|e] w'] eqn:Hrun; [|vm_compute in Hrun; discriminate].
  destruct (time_axis_ends_at_timespan scope0 _ w' time Hrun)
    as (ts & w1 & Hts & Hlen & Hlast).
  exists time. split; [reflexivity|]. split; [exact Hlen|].
  vm_compute in Hts. injection Hts as <- _. exact Hlast.
Defined.

(** X11. [getTimeAxis] needs the time offset although it does not use
    it: when the time scale was read and the answer to [:TIM:OFFS?] is
    not a numeral, it raises [ValueError] and returns no axis. *)
Theorem time_axis_needs_the_offset (self : Self) (w w1 : World)
    (timescale : float) :
  RigolScope.getTimeScale self w = (Ok timescale, w1) ->
  Py.float_of_str (response TimeOffset self w1) = None ->
  RigolScope.getTimeAxis self w =
  (Raise ValueError, snd (usbtmc.query self ":TIM:OFFS?" 20 w1)).
Proof.
  intros Hs Ho. unfold RigolScope.getTimeAxis, bind. rewrite Hs.
  change (RigolScope.getTimeOffset self w1) with (ask TimeOffset self w1).
  rewrite ask_spec, Ho. reflexivity.
Qed.

Lemma time_axis_needs_the_offset_witness :
  fst (RigolScope.getTimeScale scope0 (timebase "n/a")) = Ok 1%float /\
  fst (RigolScope.getTimeAxis scope0 (timebase "n/a")) = Raise ValueError.
Proof.
  split; [reflexivity|].
  rewrite (time_axis_needs_the_offset scope0 (timebase "n/a")
             (snd (RigolScope.getTimeScale scope0 (timebase "n/a")))
             1%float eq_refl eq_refl).
  reflexivity.
Defined.

(** ** When the table cannot be completed *)






(** Closes a goal [emits P m] for a predicate that computes. *)
Ltac emits_auto :=
  first
    [ apply emits_getTimeAxis
    | apply emits_serializer
    | apply emits_getScaledWaveform
    | apply emits_ret ];
  intros; reflexivity.



(** ** What an acquisition never does *)





(** ** The module test code as a whole *)

Lemma init_no_shutdown (device : string) :
  emits no_shutdown (RigolScope.__init__ device).
Proof.
  unfold RigolScope.__init__.
  apply emits_bind.
  { unfold usbtmc.__init__. apply emits_try.
    - apply emits_bind; [|intros; apply emits_ret].
      apply emits_bind;
        [apply emits_syscall; reflexivity|].
      intros [k d|e]; [apply emits_ret | apply emits_raise].
    - intros n. apply emits_bind; [|intros; apply emits_raise].
      apply emits_print_stderr. intros; reflexivity. }
  intros self. apply emits_bind.
  { apply emits_query; intros; reflexivity. }
  intros name. apply emits_bind; [|intros; apply emits_ret].
  apply emits_fwrite. intros; reflexivity.
Qed.

Lemma acquire_no_shutdown (self : Self) (filename : string) (chan : pyval) :
  emits no_shutdown (RigolScope.writeWaveformToFile self filename chan).
Proof.
  apply emits_acquire; try (intros; reflexivity).
  intros cmd Hin. simpl in Hin.
  repeat (destruct Hin as [<-|Hin]; [reflexivity|]). contradiction.
Qed.

Lemma device_event_split (evs : list event) :
  forallb device_event evs = true ->
  forallb silent_event evs = true /\ forallb no_shutdown evs = true.
Proof.
  induction evs as [|ev evs IH]; simpl; [auto|].
  unfold device_event at 1. rewrite !andb_true_iff.
  intros [[H1 H2] H3]. destruct (IH H3). auto.
Qed.

(** A session that [RigolScope.__init__] returns holds the descriptor
    that [os.open] gave, and the line that names the scope is the last
    thing printed. *)
Lemma init_returns (device : string) (w w1 : World) (scope : Self) :
  RigolScope.__init__ device w = (Ok scope, w1) ->
  exists d evs,
    answers w (calls w) = Done (FILE scope) d /\
    forallb device_event evs = true /\
    trace w1 =
    (trace w ++ evs
       ++ [FWrite Stdout ("# Connected to: " ++ name scope ++ newline)])%list.
Proof.
  unfold RigolScope.__init__, usbtmc.getName, bind.
  rewrite usbtmc_init_spec. cbv zeta.
  destruct (answers w (calls w)) as [fd d|e]; [|discriminate].
  rewrite (query_outcome (mkSelf device fd "") "*IDN?" 300
             (tick (log (OsOpen device) w)) ltac:(unfold INT_MAX; lia)).
  unfold print, fwrite, newline. cbn [stdout_closed tick log answers calls].
  destruct (stdout_closed w); [discriminate|].
  unfold ret, log. cbn [trace answers calls stdout_closed FILE].
  intros H. injection H as Hs Hw. subst scope w1.
  cbn [FILE name set_name trace tick].
  exists d.
  exists (OsOpen device
            :: OsWrite fd "*IDN?"
            :: match answers w (S (calls w)) with
               | Done _ _ => []
               | Failed e => [LogErr "Write Error: " (Some (OSError e))]
               end
            ++ OsRead fd 300
            :: match answers w (S (S (calls w))) with
               | Done _ _ => []
               | Failed e =>
                   [if e =? ETIMEDOUT
                    then LogErr "Read Error: Read timeout" None
                    else LogErr "Read Error: " (Some (OSError e))]
               end)%list.
  split; [reflexivity|]. split.
  - destruct (answers w (S (calls w)));
      destruct (answers w (S (S (calls w)))) as [k' d'|e'];
      try destruct (e' =? ETIMEDOUT); reflexivity.
  - rewrite <- !app_assoc. cbn [app]. rewrite <- ?app_assoc. cbn [app].
    rewrite ?append_assoc. reflexivity.
Qed.

(** A call of [writeWaveformToFile] for both channels on [sys.stdout]
    that returns has asked for the time axis, then for each of the two
    waveforms, and only then written the table and closed the stream. *)
Lemma acquire_both_returns (self : Self) (w w' : World) :
  RigolScope.writeWaveformToFile self "" (PInt (1 + 2)) w = (Ok tt, w') ->
  exists time data1 data2 w1 w2 w3 acq,
    RigolScope.getTimeAxis self w = (Ok time, w1) /\
    RigolScope.getScaledWaveform self (PInt 1) w1 = (Ok data1, w2) /\
    RigolScope.getScaledWaveform self (PInt 2) w2 = (Ok data2, w3) /\
    trace w3 = (trace w ++ acq)%list /\
    forallb device_event acq = true /\
    w' = close_stdout
           (log_all (FWrite Stdout RigolScope.header
                       :: rows_written Stdout time data1 data2
                       ++ [FClose Stdout]) w3).
Proof.
  unfold RigolScope.writeWaveformToFile. cbv zeta.
  fold_requested (PInt (1 + 2)).
  change (String.eqb "" "") with true.
  change (requested 1 (PInt (1 + 2))) with true.
  change (requested 2 (PInt (1 + 2))) with true.
  cbv iota. unfold bind, ret at 1.
  assert (EB : emits device_event (RigolScope.getTimeAxis self))
    by emits_auto.
  destruct (RigolScope.getTimeAxis self w) as [[time|e] w1] eqn:HB;
    [|discriminate].
  destruct (emits_at _ _ _ _ _ EB HB) as [eB [TB SB]].
  assert (EC : emits device_event
                 (RigolScope.getScaledWaveform self (PInt 1)))
    by emits_auto.
  destruct (RigolScope.getScaledWaveform self (PInt 1) w1)
    as [[d1|e] w2] eqn:HC; [|discriminate].
  destruct (emits_at _ _ _ _ _ EC HC) as [eC [TC SC]].
  assert (ED : emits device_event
                 (RigolScope.getScaledWaveform self (PInt 2)))
    by emits_auto.
  destruct (RigolScope.getScaledWaveform self (PInt 2) w2)
    as [[d2|e] w3] eqn:HD; [|discriminate].
  destruct (emits_at _ _ _ _ _ ED HD) as [eD [TD SD]].
  pose proof (serializer_outcome self Stdout d1 d2 time w3) as HE.
  destruct (RigolScope._writeChannelDataToFile self Stdout d1 d2 time w3)
    as [[u|e] w4]; [|discriminate].
  rewrite fclose_spec. subst w4. intros H.
  exists time, d1, d2, w1, w2, w3, (eB ++ eC ++ eD)%list.
  split; [first [exact HB | reflexivity]|].
  split; [exact HC|]. split; [exact HD|].
  split; [|split].
  - rewrite TD, TC, TB, <- !app_assoc. reflexivity.
  - rewrite !forallb_app, SB, SC, SD. reflexivity.
  - apply (f_equal snd) in H. cbn [snd] in H. rewrite <- H.
    unfold close_stdout, log_all. cbn [answers calls trace stdout_closed].
    rewrite app_comm_cons, app_assoc. reflexivity.
Qed.

Lemma silent_closes_nothing (evs : list event) :
  forallb silent_event evs = true -> existsb is_FClose evs = false.
Proof.
  induction evs as [|ev evs IH]; simpl; [reflexivity|].
  intros H. apply andb_true_iff in H as [Hev Hevs].
  rewrite (IH Hevs). destruct ev; try discriminate; reflexivity.
Qed.

Lemma rows_no_shutdown (fd : stream) (time data1 data2 : list float) :
  forallb no_shutdown (rows_written fd time data1 data2) = true.
Proof.
  apply forallb_forall. intros ev Hin. unfold rows_written in Hin.
  apply in_map_iff in Hin as (j & <- & _). reflexivity.
Qed.

(** X16. [main] unlocks the scope and releases its descriptor only when
    everything before has succeeded.  Either it raises without having
    sent [:KEY:FORC] or released any descriptor; or it has printed its
    banner, opened the scope and printed its name, asked for the time
    axis and for the waveforms of channel 1 and of channel 2, written to
    [sys.stdout] the header and one row of three cells for each of the
    600 points of the time axis, made of these three arrays, and closed
    [sys.stdout]; after that and last, it writes the unlock command to
    the descriptor that [os.open] gave and releases that descriptor, and
    it returns unless the release fails. *)
Theorem main_shuts_down_only_after_success (w : World) :
  exists evs,
    trace (snd (main w)) = (trace w ++ evs)%list /\
    ((forallb no_shutdown evs = true /\ exists e, fst (main w) = Raise e)
     \/
     (exists scope time data1 data2 w1 w2 w3 w4 pre errs,
        (exists d, answers w (calls w) = Done (FILE scope) d) /\
        RigolScope.__init__ "/dev/usbtmc0"
          (log (FWrite Stdout ("# RigolScope Test #" ++ newline)) w)
        = (Ok scope, w1) /\
        RigolScope.getTimeAxis scope w1 = (Ok time, w2) /\
        RigolScope.getScaledWaveform scope (PInt 1) w2 = (Ok data1, w3) /\
        RigolScope.getScaledWaveform scope (PInt 2) w3 = (Ok data2, w4) /\
        trace w4 = (trace w ++ pre)%list /\
        written Stdout pre
        = "# RigolScope Test #" ++ newline
            ++ "# Connected to: " ++ name scope ++ newline /\
        existsb is_FClose pre = false /\
        evs = (pre
                 ++ (FWrite Stdout RigolScope.header
                       :: rows_written Stdout time data1 data2)
                 ++ FClose Stdout
                 :: OsWrite (FILE scope) ":KEY:FORC"
                 :: errs ++ [OsClose (FILE scope)])%list /\
        forallb no_shutdown
          (pre ++ (FWrite Stdout RigolScope.header
                     :: rows_written Stdout time data1 data2)
               ++ [FClose Stdout])%list = true /\
        table (written Stdout
                 (FWrite Stdout RigolScope.header
                    :: rows_written Stdout time data1 data2))
        = header_cells :: cells time data1 data2 /\
        List.length (cells time data1 data2) = 600%nat /\
        Forall (fun r => List.length r = 3%nat) (cells time data1 data2) /\
        forallb is_LogErr errs = true /\
        stdout_closed (snd (main w)) = true /\
        fst (main w) = match answers w4 (S (calls w4)) with
                       | Done _ _ => Ok tt
                       | Failed e => Raise (OSError e)
                       end)).
Proof.
  unfold main, bind. unfold print, fwrite.
  change ("# RigolScope Test #" ++ String "010" "")
    with ("# RigolScope Test #" ++ newline).
  destruct (stdout_closed w) eqn:Hopen.
  { exists []. cbn [snd]. rewrite app_nil_r. split; [reflexivity|].
    left. split; [reflexivity | eexists; reflexivity]. }
  set (banner := "# RigolScope Test #" ++ newline).
  set (w0 := log (FWrite Stdout banner) w).
  assert (T0 : trace w0 = (trace w ++ [FWrite Stdout banner])%list)
    by reflexivity.
  destruct (RigolScope.__init__ "/dev/usbtmc0" w0) as [[scope|e] w1] eqn:H1.
  2:{ destruct (emits_at _ _ _ _ _ (init_no_shutdown _) H1) as [e1 [T1 S1]].
      exists (FWrite Stdout banner :: e1). cbn [snd fst].
      rewrite T1, T0, <- app_assoc.
      split; [reflexivity|]. left.
      split; [exact S1 | eexists; reflexivity]. }
  destruct (init_returns _ _ _ _ H1) as (d & e1 & Hfd & S1 & T1).
  destruct (device_event_split _ S1) as [Q1 N1].
  destruct (RigolScope.writeWaveformToFile scope "" (PInt (1 + 2)) w1)
    as [[[]|e] w2] eqn:H2.
  2:{ destruct (emits_at _ _ _ _ _ (acquire_no_shutdown _ _ _) H2)
        as [e2 [T2 S2]].
      exists (FWrite Stdout banner
                :: e1 ++ [FWrite Stdout
                            ("# Connected to: " ++ name scope ++ newline)]
                ++ e2)%list.
      cbn [snd fst]. rewrite T2, T1, T0, <- !app_assoc.
      split; [reflexivity|]. left.
      cbn [forallb no_shutdown]. rewrite !forallb_app, N1, S2.
      split; [reflexivity | eexists; reflexivity]. }
  destruct (acquire_both_returns _ _ _ H2)
    as (time & data1 & data2 & wa & wb & wc & acq
        & HA & HB & HC & TA & SA & ->).
  destruct (device_event_split _ SA) as [QA NA].
  rewrite close_outcome. cbn [snd fst].
  cbn [close_stdout log_all answers calls trace stdout_closed].
  set (conn := FWrite Stdout ("# Connected to: " ++ name scope ++ newline)).
  set (errs := match answers wc (calls wc) with
               | Done _ _ => []
               | Failed e => [LogErr "Write Error: " (Some (OSError e))]
               end).
  set (pre := (FWrite Stdout banner :: e1 ++ conn :: acq)%list).
  assert (Tpre : trace wc = (trace w ++ pre)%list).
  { unfold pre. rewrite TA, T1, T0, <- !app_assoc. reflexivity. }
  exists (pre
            ++ (FWrite Stdout RigolScope.header
                  :: rows_written Stdout time data1 data2)
            ++ FClose Stdout
            :: OsWrite (FILE scope) ":KEY:FORC"
            :: errs ++ [OsClose (FILE scope)])%list.
  split.
  { rewrite Tpre, <- !app_assoc. cbn [app]. rewrite <- !app_assoc.
    reflexivity. }
  right. exists scope, time, data1, data2, w1, wa, wb, wc, pre, errs.
  split; [exists d; exact Hfd|].
  split; [first [exact H1 | reflexivity]|].
  split; [exact HA|]. split; [exact HB|].
  split; [exact HC|]. split; [exact Tpre|].
  split.
  { unfold pre. cbn [written stream_eqb]. rewrite written_app.
    rewrite (written_silent _ _ Q1). cbn [written stream_eqb conn].
    unfold conn. cbn [written stream_eqb].
    rewrite (written_silent _ _ QA). cbn [append].
    rewrite append_nil_r, ?append_assoc. reflexivity. }
  split.
  { unfold pre, conn. cbn [existsb is_FClose orb]. rewrite existsb_app.
    cbn [existsb is_FClose orb].
    rewrite (silent_closes_nothing _ Q1), (silent_closes_nothing _ QA).
    reflexivity. }
  split; [reflexivity|].
  split.
  { unfold pre, conn.
    repeat (rewrite forallb_app || cbn [forallb no_shutdown andb app]).
    rewrite N1, NA, rows_no_shutdown. reflexivity. }
  destruct (cells_shape time data1 data2) as [Hn H3].
  split.
  { rewrite <- (app_nil_l (FWrite Stdout RigolScope.header :: _)).
    rewrite (written_table Stdout [] time data1 data2 eq_refl).
    apply (table_unlines (at_ time) (at_ data1) (at_ data2)). }
  split; [rewrite Hn; exact (getTimeAxis_length _ _ _ _ HA)|].
  split; [exact H3|].
  split; [unfold errs; destruct (answers wc (calls wc)); reflexivity|].
  split; reflexivity.
Qed.

(** ** The centre of the display *)

Lemma finite_nonzero_SF (x : float) :
  is_finite x = true -> PrimFloat.eqb x zero = false ->
  exists s m e, Prim2SF x = S754_finite s m e.
Proof.
  unfold is_finite, is_nan, is_infinity.
  rewrite !FloatAxioms.eqb_spec, abs_spec.
  destruct (Prim2SF x) as [s|s| |s m e]; intros Hf Hz.
  - destruct s; vm_compute in Hz; discriminate.
  - destruct s; vm_compute in Hf; discriminate.
  - vm_compute in Hf. discriminate.
  - eauto.
Qed.

Lemma zero_SF (x : float) :
  PrimFloat.eqb x zero = true -> exists s, Prim2SF x = S754_zero s.
Proof.
  rewrite FloatAxioms.eqb_spec.
  destruct (Prim2SF x) as [s|s| |s m e]; intros Hz.
  - eauto.
  - destruct s; vm_compute in Hz; discriminate.
  - vm_compute in Hz. discriminate.
  - destruct s; cbv in Hz; discriminate.
Qed.

Lemma centre_volts (voltscale voltoffset : float) :
  is_finite voltscale = true ->
  PrimFloat.eqb voltscale zero = false ->
  PrimFloat.eqb voltoffset zero = true ->
  PrimFloat.eqb
    ((numpy.of_int ((255 - 125) mod 256) - 130
      - voltoffset / voltscale * 25) / 25 * voltscale)%float
    zero = true.
Proof.
  intros Hf Hnz Hoz.
  destruct (finite_nonzero_SF voltscale Hf Hnz) as (sv & m & e & Hv).
  destruct (zero_SF voltoffset Hoz) as (so & Ho).
  rewrite FloatAxioms.eqb_spec, mul_spec, div_spec, sub_spec, sub_spec,
    mul_spec, div_spec, Hv, Ho.
  destruct so, sv; vm_compute; reflexivity.
Qed.

Lemma getScaledWaveform_map (self : Self) (chan : pyval)
    (w w1 w2 w3 : World) (data : list Z) (voltscale voltoffset : float) :
  RigolScope.readData self chan w = (Ok data, w1) ->
  RigolScope.getVoltScale self chan w1 = (Ok voltscale, w2) ->
  RigolScope.getVoltOffset self chan w2 = (Ok voltoffset, w3) ->
  PrimFloat.eqb voltscale zero = false ->
  RigolScope.getScaledWaveform self chan w =
  (Ok (map (fun s => ((numpy.of_int ((255 - s) mod 256) - 130
                       - voltoffset / voltscale * 25) / 25 * voltscale)%float)
         data), w3).
Proof.
  intros Hd Hs Ho Hz.
  unfold RigolScope.getScaledWaveform, bind. rewrite Hd, Hs, Ho.
  unfold Py.truediv. rewrite Hz. simpl. unfold ret. do 2 f_equal.
  unfold numpy.mul_f, numpy.div_f, numpy.sub_f, numpy.sub_u8_f, numpy.rsub_u8.
  rewrite !map_map. reflexivity.
Qed.

(** X17. With no voltage offset, the sample 125 (the centre of the
    display, 130 counts once inverted) reads zero volts at every finite
    voltage scale that is not zero. *)
Theorem centre_sample_reads_zero (self : Self) (chan : pyval)
    (w w1 w2 w3 : World) (data : list Z) (voltscale voltoffset : float) :
  RigolScope.readData self chan w = (Ok data, w1) ->
  RigolScope.getVoltScale self chan w1 = (Ok voltscale, w2) ->
  RigolScope.getVoltOffset self chan w2 = (Ok voltoffset, w3) ->
  is_finite voltscale = true ->
  PrimFloat.eqb voltscale zero = false ->
  PrimFloat.eqb voltoffset zero = true ->
  exists volts,
    RigolScope.getScaledWaveform self chan w = (Ok volts, w3) /\
    forall i, (i < List.length data)%nat -> nth i data 0 = 125 ->
              PrimFloat.eqb (at_ volts i) zero = true.
Proof.
  intros Hd Hs Ho Hf Hnz Hoz.
  eexists. split.
  - apply (getScaledWaveform_map self chan w w1 w2 w3 data voltscale
             voltoffset Hd Hs Ho Hnz).
  - intros i Hi H125. unfold at_.
    set (f := fun s : Z => _).
    rewrite (nth_indep _ nan (f 0)) by (rewrite length_map; exact Hi).
    rewrite map_nth, H125. unfold f.
    apply centre_volts; assumption.
Qed.

Lemma centre_sample_reads_zero_witness :
  is_finite 0x1.999999999999ap-3 = true /\
  exists volts,
    fst (RigolScope.getScaledWaveform scope0 (PInt 1) centre_sample)
    = Ok volts /\
    PrimFloat.eqb (at_ volts 0) zero = true.
Proof.
  split; [reflexivity|].
  destruct (centre_sample_reads_zero scope0 (PInt 1) centre_sample
    (snd (RigolScope.readData scope0 (PInt 1) centre_sample))
    (snd (RigolScope.getVoltScale scope0 (PInt 1)
            (snd (RigolScope.readData scope0 (PInt 1) centre_sample))))
    (snd (RigolScope.getScaledWaveform scope0 (PInt 1) centre_sample))
    [125] 0x1.999999999999ap-3%float 0%float
    eq_refl eq_refl eq_refl eq_refl eq_refl eq_refl)
    as (volts & Hrun & Hzero).
  exists volts. rewrite Hrun. split; [reflexivity|].
  apply (Hzero 0%nat); [simpl; lia | reflexivity].
Defined.

(** ** Calls that follow a table on [sys.stdout] *)

Lemma closed_stdout_raises (self : Self) (chan : pyval) (w : World) :
  stdout_closed w = true ->
  exists e w' evs,
    RigolScope.writeWaveformToFile self "" chan w = (Raise e, w') /\
    trace w' = (trace w ++ evs)%list /\
    forallb silent_event evs = true.
Proof.
  intros Hc. unfold RigolScope.writeWaveformToFile. cbv zeta.
  fold_requested chan. change (String.eqb "" "") with true. cbv iota.
  unfold bind. unfold ret at 1.
  destruct (RigolScope.getTimeAxis self w) as [[time|e] w1] eqn:HB;
    destruct (quiet_at _ _ _ _ (quiet_getTimeAxis self) HB)
      as [eB [TB [SB CB]]].
  2:{ exists e, w1, eB. auto. }
  destruct ((if requested 1 chan
             then RigolScope.getScaledWaveform self (PInt 1)
             else ret (numpy.zeros (numpy.size time))) w1)
    as [[d1|e] w2] eqn:HC;
    destruct (quiet_at _ _ _ _ (quiet_channel self 1 _ _) HC)
      as [eC [TC [SC CC]]].
  2:{ exists e, w2, (eB ++ eC)%list.
      rewrite TC, TB, <- app_assoc, forallb_app, SB, SC. auto. }
  destruct ((if requested 2 chan
             then RigolScope.getScaledWaveform self (PInt 2)
             else ret (numpy.zeros (numpy.size time))) w2)
    as [[d2|e] w3] eqn:HD;
    destruct (quiet_at _ _ _ _ (quiet_channel self 2 _ _) HD)
      as [eD [TD [SD CD]]].
  2:{ exists e, w3, (eB ++ eC ++ eD)%list.
      rewrite TD, TC, TB, <- !app_assoc, !forallb_app, SB, SC, SD. auto. }
  assert (Hw3 : stdout_closed w3 = true) by congruence.
  unfold RigolScope._writeChannelDataToFile, bind, fwrite. rewrite Hw3.
  exists ValueError, w3, (eB ++ eC ++ eD)%list.
  rewrite TD, TC, TB, <- !app_assoc, !forallb_app, SB, SC, SD. auto.
Qed.

(** X18. A table can be sent to [sys.stdout] once only.  After a call of
    [writeWaveformToFile] with the blank file name has returned, every
    later call with the blank file name raises, whatever the selector
    and the device, and writes nothing. *)
Theorem second_table_on_stdout_fails (self : Self) (chan chan' : pyval)
    (w w' : World) :
  RigolScope.writeWaveformToFile self "" chan w = (Ok tt, w') ->
  exists e w'' evs,
    RigolScope.writeWaveformToFile self "" chan' w' = (Raise e, w'') /\
    trace w'' = (trace w' ++ evs)%list /\
    written Stdout evs = "".
Proof.
  intros Hrun.
  pose proof (writeWaveformToFile_outcome self "" chan w) as Hout.
  rewrite Hrun in Hout.
  destruct Hout as (_ & _ & _ & _ & _ & _ & _ & _ & _ & _ & _ & _ & Hclosed).
  destruct (closed_stdout_raises self chan' w' Hclosed)
    as (e & w'' & evs & Hraise & Htr & Hsilent).
  exists e, w'', evs. split; [exact Hraise|]. split; [exact Htr|].
  apply written_silent, Hsilent.
Qed.

Lemma second_table_on_stdout_fails_witness :
  fst (RigolScope.writeWaveformToFile scope0 "" (PInt 0) only_timebase)
  = Ok tt /\
  exists e,
    fst (RigolScope.writeWaveformToFile scope0 "" (PInt 0)
           (snd (RigolScope.writeWaveformToFile scope0 "" (PInt 0)
                   only_timebase)))
    = Raise e.
Proof.
  assert (Hrun : RigolScope.writeWaveformToFile scope0 "" (PInt 0)
                   only_timebase
                 = (Ok tt, snd (RigolScope.writeWaveformToFile scope0 ""
                                  (PInt 0) only_timebase)))
    by (vm_compute; reflexivity).
  split; [rewrite Hrun; reflexivity|].
  destruct (second_table_on_stdout_fails scope0 (PInt 0) (PInt 0)
              only_timebase _ Hrun) as (e & w'' & evs & Hraise & _).
  exists e. rewrite Hraise. reflexivity.
Defined.

(** ** Channels longer than the time axis *)




Lemma getScaledWaveform_zero_scale_witness :
  PrimFloat.eqb (-0)%float zero = true /\
  fst (RigolScope.getScaledWaveform scope0 (PInt 1)
         (mkWorld
            (script [Done 16 ""; Done 0 (preamble ++ wave 1 "130");
                     Done 12 ""; Done 0 "-0.0";
                     Done 12 ""; Done 0 "1.0"]) 0 [] false))
  = Raise ZeroDivisionError.
Proof.
  split; [reflexivity|].
  rewrite (getScaledWaveform_zero_scale scope0 (PInt 1)
    (mkWorld
       (script [Done 16 ""; Done 0 (preamble ++ wave 1 "130");
                Done 12 ""; Done 0 "-0.0";
                Done 12 ""; Done 0 "1.0"]) 0 [] false)
    _ _ _ [130] (-0)%float 1%float eq_refl eq_refl eq_refl eq_refl).
  reflexivity.
Defined.
